(** * fm_pyscal: the ERT forward model wrapping the pyscal command line client

    A shallow embedding of [semeio/jobs/scripts/fm_pyscal.py] and the
    properties of its name normaliser, of its table of magic interpolation
    parameters and of the decision logic of [run]. *)

From Stdlib Require Import String Ascii List ZArith Bool QArith Lia.
Import ListNotations.
Open Scope string_scope.
Open Scope list_scope.

(** ** Python strings

    A [str] is modelled as a Stdlib [string].  The program only ever splits
    on the ASCII colon and compares the lower-cased keyword with two ASCII
    words, so the byte view and the code-point view of a string agree on
    everything it observes. *)

Module PyStr.

(** [c in s], for a one-character needle. *)
Fixpoint contains (c : ascii) (s : string) : bool :=
  match s with
  | EmptyString => false
  | String a s' => if Ascii.eqb a c then true else contains c s'
  end.

(** [s.split(sep)] for a one-character separator: every occurrence of the
    separator cuts, empty pieces are kept, and the result is never empty. *)
Fixpoint split (sep : ascii) (s : string) : list string :=
  match s with
  | EmptyString => [EmptyString]
  | String a s' =>
      if Ascii.eqb a sep then EmptyString :: split sep s'
      else match split sep s' with
           | [] => [String a EmptyString]
           | p :: ps => String a p :: ps
           end
  end.

(** [sep.join(parts)]. *)
Fixpoint join (sep : string) (parts : list string) : string :=
  match parts with
  | [] => EmptyString
  | [p] => p
  | p :: ps => p ++ sep ++ join sep ps
  end.

(** [parts[1:]]. *)
Definition slice_from_1 (parts : list string) : list string := tl parts.

Definition lower_ascii (a : ascii) : ascii :=
  let n := nat_of_ascii a in
  if andb (Nat.leb 65 n) (Nat.leb n 90) then ascii_of_nat (n + 32) else a.

(** [s.lower()]. *)
Fixpoint lower (s : string) : string :=
  match s with
  | EmptyString => EmptyString
  | String a s' => String (lower_ascii a) (lower s')
  end.

(** [s in l] for a list of strings. *)
Fixpoint in_list (s : string) (l : list string) : bool :=
  match l with
  | [] => false
  | x :: l' => if String.eqb s x then true else in_list s l'
  end.

End PyStr.

(** ** Python values and dictionaries *)

(** The values the parameter dictionary holds: the strings read from
    [parameters.txt] and the integers of [MAGIC_CASES]. *)
Inductive pyval : Type :=
| VStr (s : string)
| VInt (z : Z).

(** A [dict] with [str] keys, as the list of its items in insertion order
    (the order [items()] iterates in, which decides the winner when a dict
    comprehension produces the same key twice). *)
Definition dict : Type := list (string * pyval).

Module Dict.

(** [d[k]], [None] standing for [KeyError]. *)
Fixpoint get (k : string) (d : dict) : option pyval :=
  match d with
  | [] => None
  | (k', v) :: d' => if String.eqb k k' then Some v else get k d'
  end.

(** [k in d]. *)
Definition mem (k : string) (d : dict) : bool :=
  match get k d with Some _ => true | None => false end.

(** [d[k] = v]: an existing key keeps its place and takes the new value, a
    new key goes last. *)
Fixpoint set (k : string) (v : pyval) (d : dict) : dict :=
  match d with
  | [] => [(k, v)]
  | (k', v') :: d' =>
      if String.eqb k k' then (k', v) :: d' else (k', v') :: set k v d'
  end.

(** [d.update(other)]. *)
Definition update (d other : dict) : dict :=
  fold_left (fun acc kv => set (fst kv) (snd kv) acc) other d.

(** [{f(key): value for key, value in d.items()}]. *)
Definition map_keys (f : string -> string) (d : dict) : dict :=
  fold_left (fun acc kv => set (f (fst kv)) (snd kv) acc) d [].

Definition keys (d : dict) : list string := map fst d.

End Dict.

(** ** Module constants *)

Definition MAGIC_NONE : string := "__NONE__".

Definition MAGIC_CASES : dict :=
  [ ("__BASE__", VInt 0);
    ("__LOW__", VInt (-1));
    ("__PESS__", VInt (-1));
    ("__PESSIMISTIC__", VInt (-1));
    ("__HIGH__", VInt 1);
    ("__OPT__", VInt 1);
    ("__OPTIMISTIC__", VInt 1) ].

(** ** The name normaliser *)

(** The argument of [rm_genkw_prefix]: the function dispatches on the run-time
    type of its argument. *)
Inductive str_or_dict : Type :=
| Str (s : string)
| Dct (d : dict)
| Other.

Inductive exn : Type :=
| IOError
| ValueError (msg : string)
| TypeError (msg : string)
| KeyError (key : string)
| AssertionError.

(** The [six.string_types] branch of [rm_genkw_prefix]. *)
Definition rm_genkw_prefix_str (s : string) : string :=
  if PyStr.contains ":" s then
    let parts := PyStr.split ":" s in
    PyStr.join ":" (PyStr.slice_from_1 parts)
  else s.

(** The [dict] branch of [rm_genkw_prefix]; the keys are strings, so the
    recursive call on a key takes the string branch. *)
Definition rm_genkw_prefix_dict (d : dict) : dict :=
  Dict.map_keys rm_genkw_prefix_str d.

Definition rm_genkw_prefix (x : str_or_dict) : exn + str_or_dict :=
  match x with
  | Str s => inr (Str (rm_genkw_prefix_str s))
  | Dct d => inr (Dct (rm_genkw_prefix_dict d))
  | Other =>
      inl (TypeError "rm_genkw_prefix() can only handle str or dict as argument")
  end.

(** ** Effects

    [run] checks paths, reads [parameters.txt], logs, leaves through
    [sys.exit] or an exception, and calls [pyscalcli.pyscal_main].  A
    computation reads the file system, appends to a trace of the effects it
    performed, and either aborts or returns. *)

(** The file system: [None] for a path that does not exist, the lines
    [readlines()] gives for one that does. *)
Record world : Type := { fs : string -> option (list string) }.

Inductive abort : Type :=
| SysExit (code : Z)
| Raise (e : exn).

(** The keyword arguments of [pyscalcli.pyscal_main], over the type of
    floats. *)
Record pyscal_args (F : Type) : Type := {
  parametertable : string;
  verbose : bool;
  output : string;
  sheet_name_arg : option string;
  int_param_wo : option F;
  int_param_go : option F;
  slgof_arg : bool;
  family2 : bool
}.

Arguments parametertable {F} _.
Arguments verbose {F} _.
Arguments output {F} _.
Arguments sheet_name_arg {F} _.
Arguments int_param_wo {F} _.
Arguments int_param_go {F} _.
Arguments slgof_arg {F} _.
Arguments family2 {F} _.

(** What the program takes from outside its own file: the builtin [float],
    [extract_key_value] of [semeio.jobs.design_kw] and [pyscal_main] of the
    pyscal package.  [float_of_str] is [None] where [float] raises
    [ValueError]; [extract_key_value] gives the items of the dictionary it
    builds or raises; [pyscal_main] returns or aborts. *)
Class External : Type := {
  pyfloat : Type;
  float_of_int : Z -> pyfloat;
  float_of_str : string -> option pyfloat;
  extract_key_value : list string -> exn + dict;
  pyscal_main : world -> pyscal_args pyfloat -> abort + unit
}.

Inductive level : Type := ERROR | INFO.

Section Program.

Context {E : External}.

(** An argument of a logging call. *)
Inductive logarg : Type :=
| AStr (s : string)
| AFloat (f : pyfloat).

Inductive event : Type :=
| PathExists (path : string)
| OpenRead (path : string)
| Log (lvl : level) (fmt : string) (args : list logarg)
| PyscalMain (args : pyscal_args pyfloat).

Definition M (A : Type) : Type := world -> list event * (abort + A).

Definition ret {A : Type} (x : A) : M A := fun _ => ([], inr x).

Definition bind {A B : Type} (m : M A) (k : A -> M B) : M B :=
  fun w =>
    match m w with
    | (t, inl a) => (t, inl a)
    | (t, inr x) => let (t', r) := k x w in (t ++ t', r)
    end.

Definition os_path_exists (path : string) : M bool :=
  fun w => ([PathExists path],
            inr (match fs w path with Some _ => true | None => false end)).

(** [open(path)] followed by [readlines()]. *)
Definition open_readlines (path : string) : M (list string) :=
  fun w => ([OpenRead path],
            match fs w path with
            | Some lines => inr lines
            | None => inl (Raise IOError)
            end).

Definition logger_error (fmt : string) (args : list logarg) : M unit :=
  fun _ => ([Log ERROR fmt args], inr tt).

Definition logger_info (fmt : string) (args : list logarg) : M unit :=
  fun _ => ([Log INFO fmt args], inr tt).

Definition sys_exit {A : Type} (code : Z) : M A :=
  fun _ => ([], inl (SysExit code)).

Definition raise {A : Type} (e : exn) : M A :=
  fun _ => ([], inl (Raise e)).

Definition lift_exn {A : Type} (r : exn + A) : M A :=
  match r with
  | inl e => raise e
  | inr x => ret x
  end.

Definition assert_ (b : bool) : M unit :=
  if b then ret tt else raise AssertionError.

Definition when (b : bool) (m : M unit) : M unit :=
  if b then m else ret tt.

(** [try: m  except ValueError as e: h e]. *)
Definition try_except_ValueError {A : Type}
    (m : M A) (h : string -> M A) : M A :=
  fun w =>
    match m w with
    | (t, inl (Raise (ValueError msg))) =>
        let (t', r) := h msg w in (t ++ t', r)
    | other => other
    end.

Definition call_pyscal_main (args : pyscal_args pyfloat) : M unit :=
  fun w => ([PyscalMain args], pyscal_main w args).

(** [d[k]] as an expression. *)
Definition getitem (d : dict) (k : string) : exn + pyval :=
  match Dict.get k d with
  | Some v => inr v
  | None => inl (KeyError k)
  end.

(** The builtin [float] on a dictionary value; the message of the
    [ValueError] is the one of Python 3 for a literal it prints as it is. *)
Definition float (v : pyval) : exn + pyfloat :=
  match v with
  | VInt z => inr (float_of_int z)
  | VStr s =>
      match float_of_str s with
      | Some f => inr f
      | None =>
          inl (ValueError
                 ("could not convert string to float: '" ++ s ++ "'")%string)
      end
  end.

End Program.

Declare Scope py_scope.
Delimit Scope py_scope with py.
Notation "x <- m ;; k" := (bind m (fun x => k))
  (at level 61, m at next level, right associativity) : py_scope.
Notation "' pat <- m ;; k" := (bind m (fun x => match x with pat => k end))
  (at level 61, pat pattern, m at next level, right associativity) : py_scope.
Notation "m ;; k" := (bind m (fun _ => k))
  (at level 61, right associativity) : py_scope.
Open Scope py_scope.

Section Script.

Context {E : External}.

(** The dictionary [_get_interpolation_values] looks names up in: the parsed
    file with its keys normalised, updated with [MAGIC_CASES]. *)
Definition parameter_dict_of (parsed : dict) : dict :=
  let parameter_dict := rm_genkw_prefix_dict parsed in
  Dict.update parameter_dict MAGIC_CASES.

Definition _get_interpolation_values
    (int_param_wo_name int_param_go_name parameters_file_name : string)
    : M (pyfloat * pyfloat) :=
  ex <- os_path_exists parameters_file_name ;;
  when (negb ex)
    (logger_error "%s does not exists" [AStr parameters_file_name] ;;
     raise IOError) ;;
  parameters <- open_readlines parameters_file_name ;;
  parsed <- lift_exn (extract_key_value parameters) ;;
  let parameter_dict := parameter_dict_of parsed in
  when (negb (Dict.mem int_param_wo_name parameter_dict))
    (logger_error "Requested parameter name %s not found in %s"
       [AStr int_param_wo_name; AStr parameters_file_name] ;;
     raise (ValueError "Parameter name not found")) ;;
  v_wo <- lift_exn (getitem parameter_dict int_param_wo_name) ;;
  int_param_wo <- lift_exn (float v_wo) ;;
  logger_info "Collected %s from parameter.txt with value %f"
    [AStr int_param_wo_name; AFloat int_param_wo] ;;
  when (negb (Dict.mem int_param_go_name parameter_dict))
    (logger_error "Requested parameter name %s not found in %s"
       [AStr int_param_go_name; AStr parameters_file_name] ;;
     raise (ValueError "Parameter name not found")) ;;
  v_go <- lift_exn (getitem parameter_dict int_param_go_name) ;;
  int_param_go <- lift_exn (float v_go) ;;
  when (negb (String.eqb int_param_go_name int_param_wo_name))
    (logger_info "Collected %s from parameter.txt with value %f"
       [AStr int_param_go_name; AFloat int_param_go]) ;;
  ret (int_param_wo, int_param_go).

Definition run
    (relperm_parameters_file output_filename sheet_name
     int_param_wo_name int_param_go_name slgof : string)
    (family : Z) (parameters_file_name : string) : M unit :=
  ex <- os_path_exists relperm_parameters_file ;;
  when (negb ex)
    (logger_error "%s does not exist" [AStr relperm_parameters_file] ;;
     sys_exit 1) ;;
  assert_ (negb (PyStr.contains ":" MAGIC_NONE)) ;;
  let int_param_wo_name := rm_genkw_prefix_str int_param_wo_name in
  let int_param_go_name := rm_genkw_prefix_str int_param_go_name in
  ' (do_interpolation, int_param_go_name) <-
    (if negb (String.eqb int_param_wo_name MAGIC_NONE)
        && negb (String.eqb int_param_go_name MAGIC_NONE)
     then ret (true, int_param_go_name)
     else if negb (String.eqb int_param_wo_name MAGIC_NONE)
             && String.eqb int_param_go_name MAGIC_NONE
     then ret (true, int_param_wo_name)
     else if String.eqb int_param_wo_name MAGIC_NONE
             && String.eqb int_param_go_name MAGIC_NONE
     then ret (false, int_param_go_name)
     else (logger_error "WaterOil interpolation parameter missing" [] ;;
           sys_exit 1)) ;;
  let slgof := PyStr.lower slgof in
  when (negb (PyStr.in_list slgof ["sgof"; "slgof"]))
    (logger_error "Only supports sgof or slgof" [] ;;
     sys_exit 1) ;;
  when (negb (existsb (Z.eqb family) [1; 2]%Z))
    (logger_error "Family must be either 1 or 2" [] ;;
     sys_exit 1) ;;
  ' (int_param_wo, int_param_go) <-
    (if do_interpolation : bool
     then ' (wo, go) <- _get_interpolation_values
                          int_param_wo_name int_param_go_name
                          parameters_file_name ;;
          ret (Some wo, Some go)
     else ret (None, None)) ;;
  let sheet_name :=
    if PyStr.in_list sheet_name ["0"; MAGIC_NONE] then None
    else Some sheet_name in
  try_except_ValueError
    (call_pyscal_main
       {| parametertable := relperm_parameters_file;
          verbose := true;
          output := output_filename;
          sheet_name_arg := sheet_name;
          int_param_wo := int_param_wo;
          int_param_go := int_param_go;
          slgof_arg := String.eqb slgof "slgof";
          family2 := Z.eqb family 2 |})
    (fun e_msg => logger_error e_msg [] ;; raise (ValueError e_msg)).


End Script.

(** ** The table of magic cases, by value *)

(** The names [MAGIC_CASES] maps to the integer [z], in the order of the
    table. *)
Definition magic_names_for (z : Z) : list string :=
  Dict.keys
    (filter (fun kv => match snd kv with
                       | VInt z' => Z.eqb z' z
                       | VStr _ => false
                       end) MAGIC_CASES).

(** The error [_get_interpolation_values] logs before it raises for a name
    that is not in the parameter dictionary. *)
Definition not_found_log {E : External} (name parameters_file_name : string)
    : event :=
  Log ERROR "Requested parameter name %s not found in %s"
    [AStr name; AStr parameters_file_name].

(** ** The pieces of [run], named

    The tests and the final call of [run], as [run] writes them, under names
    the statements below can use. *)

(** [slgof.lower() in ["sgof", "slgof"]]. *)
Definition slgof_ok (slgof : string) : bool :=
  PyStr.in_list (PyStr.lower slgof) ["sgof"; "slgof"].

(** [family in [1, 2]]. *)
Definition family_ok (family : Z) : bool :=
  existsb (Z.eqb family) [1; 2]%Z.

(** The two names, normalised, form one of the three scenarios [run]
    accepts: it is not the case that only the gas-oil name is given. *)
Definition scenario_ok (wo go : string) : bool :=
  negb (String.eqb (rm_genkw_prefix_str wo) MAGIC_NONE)
  || String.eqb (rm_genkw_prefix_str go) MAGIC_NONE.

(** The keyword arguments [run] passes to [pyscal_main], given the two
    interpolation values it resolved. *)
Definition pyscal_kwargs {E : External}
    (relperm_parameters_file output_filename sheet_name slgof : string)
    (family : Z) (wo go : option pyfloat) : pyscal_args pyfloat :=
  {| parametertable := relperm_parameters_file;
     verbose := true;
     output := output_filename;
     sheet_name_arg :=
       if PyStr.in_list sheet_name ["0"; MAGIC_NONE] then None
       else Some sheet_name;
     int_param_wo := wo;
     int_param_go := go;
     slgof_arg := String.eqb (PyStr.lower slgof) "slgof";
     family2 := Z.eqb family 2 |}.

(** The [try] block that ends [run]. *)
Definition delegate {E : External} (args : pyscal_args pyfloat) : M unit :=
  try_except_ValueError
    (call_pyscal_main args)
    (fun e_msg => logger_error e_msg [] ;; raise (ValueError e_msg)).

(** Some file was opened along the trace; the parameters file is the only
    one the script opens. *)
Definition opens_a_file {E : External} (t : list event) : bool :=
  existsb (fun e => match e with OpenRead _ => true | _ => false end) t.

(** ** Observations on strings, dictionaries and traces *)

(** [s.count(c)] for a one-character needle. *)
Fixpoint count_char (c : ascii) (s : string) : nat :=
  match s with
  | EmptyString => O
  | String a s' =>
      if Ascii.eqb a c then S (count_char c s') else count_char c s'
  end.

(** The value of the last item of [d] whose key [f] sends to [k]. *)
Definition last_value_under (f : string -> string) (k : string) (d : dict)
    : option pyval :=
  option_map snd (find (fun kv => String.eqb (f (fst kv)) k) (rev d)).

(** The items of [d] with every key sent through [f], in place. *)
Definition rename_keys (f : string -> string) (d : dict) : dict :=
  map (fun kv => (f (fst kv), snd kv)) d.

(** The paths opened along a trace, in order. *)
Fixpoint opened_paths {E : External} (t : list event) : list string :=
  match t with
  | [] => []
  | OpenRead path :: t' => path :: opened_paths t'
  | _ :: t' => opened_paths t'
  end.

(** The calls of [pyscal_main] along a trace, in order. *)
Fixpoint pyscal_calls {E : External} (t : list event)
    : list (pyscal_args pyfloat) :=
  match t with
  | [] => []
  | PyscalMain args :: t' => args :: pyscal_calls t'
  | _ :: t' => pyscal_calls t'
  end.

(** What [run] logs after [pyscal_main] came back with [r]: the message of a
    [ValueError], nothing otherwise. *)
Definition value_error_log {E : External} (r : abort + unit) : list event :=
  match r with
  | inl (Raise (ValueError msg)) => [Log ERROR msg []]
  | _ => []
  end.

(** The name [run] has [_get_interpolation_values] look up for gas-oil: the
    normalised gas-oil name, or the normalised water-oil name when the
    gas-oil name is the sentinel. *)
Definition gas_oil_lookup_name (wo go : string) : string :=
  if String.eqb (rm_genkw_prefix_str go) MAGIC_NONE
  then rm_genkw_prefix_str wo else rm_genkw_prefix_str go.

(** ** A concrete environment for examples

    Rationals stand for floats, [float] reads the few literals the examples
    use, [extract_key_value] reads lines of the plain form [KEY VALUE], and
    [pyscal_main] returns normally. *)

Module Fixture.

Definition LF : string := String (ascii_of_nat 10) EmptyString.

(** A line as [readlines()] gives it. *)
Definition line (s : string) : string := String.append s LF.

Definition read_float (s : string) : option Q :=
  if String.eqb s "0.5" then Some (1 # 2)
  else if String.eqb s "5.0" then Some (5 # 1)
  else if String.eqb s "1.0" then Some (1 # 1)
  else if String.eqb s "-0.25" then Some (-1 # 4)
  else None.

Fixpoint strip_newline (s : string) : string :=
  match s with
  | EmptyString => EmptyString
  | String a s' =>
      if Ascii.eqb a (ascii_of_nat 10) then EmptyString
      else String a (strip_newline s')
  end.

(** The words of a line: its pieces between blanks. *)
Definition words (line : string) : list string :=
  filter (fun p => negb (String.eqb p EmptyString))
    (PyStr.split " " (strip_newline line)).

Fixpoint key_value_lines (lines : list string) (res : dict) : exn + dict :=
  match lines with
  | [] => inr res
  | line :: rest =>
      match words line with
      | [] => key_value_lines rest res
      | [_] =>
          inl (ValueError (String.append "No value found in line " line))
      | [key; value] =>
          if Dict.mem key res
          then inl (ValueError
                      (String.append key " is defined multiple times"))
          else key_value_lines rest (Dict.set key (VStr value) res)
      | _ =>
          inl (ValueError
                 (String.append "Too many values found in line " line))
      end
  end.

Definition ext : External := {|
  pyfloat := Q;
  float_of_int := inject_Z;
  float_of_str := read_float;
  extract_key_value := fun lines => key_value_lines lines [];
  pyscal_main := fun _ _ => inr tt
|}.

(** A run directory holding [files]. *)
Definition world_of (files : list (string * list string)) : world :=
  {| fs := fun path =>
       match find (fun f => String.eqb path (fst f)) files with
       | Some f => Some (snd f)
       | None => None
       end |}.

Definition relperm_lines : list string := [line "SATNUM,CASE"].

Definition params_lines : list string :=
  [ line "SCAL:MYPARAM 0.5";
    line "__HIGH__ -0.25";
    line "FAR 5.0" ].

(** What [extract_key_value] makes of [params_lines]. *)
Definition params_parsed : dict :=
  [ ("SCAL:MYPARAM", VStr "0.5");
    ("__HIGH__", VStr "-0.25");
    ("FAR", VStr "5.0") ].

(** The relperm table is there; [parameters.txt] defines a parameter of its
    own, a parameter named like a magic case, and one outside [-1, 1]. *)
Definition w_params : world :=
  world_of
    [ ("relperm.csv", relperm_lines);
      ("parameters.txt", params_lines) ].

(** The relperm table is there, [parameters.txt] is not. *)
Definition w_no_params : world :=
  world_of [ ("relperm.csv", relperm_lines) ].

(** As [ext], with a [pyscal_main] that refuses a water-oil value outside
    [-1, 1] with a [ValueError]. *)
Definition ext_strict : External := {|
  pyfloat := Q;
  float_of_int := inject_Z;
  float_of_str := read_float;
  extract_key_value := fun lines => key_value_lines lines [];
  pyscal_main := fun _ args =>
    match int_param_wo args with
    | Some q =>
        if Qle_bool (-1 # 1) q && Qle_bool q (1 # 1) then inr tt
        else inl (Raise (ValueError "Interpolation parameter out of range"))
    | None => inr tt
    end
|}.

(** [parameters.txt] holds a value [float] does not read. *)
Definition w_bad_value : world :=
  world_of
    [ ("relperm.csv", relperm_lines);
      ("parameters.txt", [line "MYPARAM high"]) ].

(** [parameters.txt] holds a line without a value. *)
Definition w_bad_line : world :=
  world_of
    [ ("relperm.csv", relperm_lines);
      ("parameters.txt", [line "MYPARAM"]) ].


(** Two keys of the file that differ in their namespace only. *)
Definition colliding_parsed : dict :=
  [ ("A:X", VStr "0.5"); ("Y", VStr "1.0"); ("B:X", VStr "5.0") ].

End Fixture.

(** Unfolds the script and the effect primitives down to the file system
    and the external functions. *)
Ltac py_unfold :=
  unfold run, _get_interpolation_values, delegate, bind, when, ret, raise,
    lift_exn, os_path_exists, open_readlines, logger_error, logger_info,
    sys_exit, assert_, try_except_ValueError, call_pyscal_main, getitem.

(** * Properties *)

(** ** Strings *)

Lemma contains_split_none (c : ascii) (s : string) :
  PyStr.contains c s = false -> PyStr.split c s = [s].
Proof.
  induction s as [|a s IH]; simpl; [reflexivity|].
  destruct (Ascii.eqb a c); [discriminate|].
  intros Hs. rewrite (IH Hs). reflexivity.
Qed.

Lemma contains_app_sep (c : ascii) (pre post : string) :
  PyStr.contains c (pre ++ String c post)%string = true.
Proof.
  induction pre as [|a pre IH]; simpl.
  - rewrite Ascii.eqb_refl. reflexivity.
  - destruct (Ascii.eqb a c); [reflexivity|exact IH].
Qed.

Lemma split_app_sep (c : ascii) (pre post : string) :
  PyStr.contains c pre = false ->
  PyStr.split c (pre ++ String c post)%string = pre :: PyStr.split c post.
Proof.
  induction pre as [|a pre IH]; simpl.
  - intros _. rewrite Ascii.eqb_refl. reflexivity.
  - destruct (Ascii.eqb a c); [discriminate|].
    intros Hpre. rewrite (IH Hpre). reflexivity.
Qed.

Lemma split_not_nil (c : ascii) (s : string) : PyStr.split c s <> [].
Proof.
  destruct s as [|a s]; simpl; [discriminate|].
  destruct (Ascii.eqb a c); [discriminate|].
  destruct (PyStr.split c s); discriminate.
Qed.

Lemma join_cons (sep p : string) (ps : list string) :
  ps <> [] ->
  PyStr.join sep (p :: ps) = (p ++ sep ++ PyStr.join sep ps)%string.
Proof. destruct ps; [congruence|reflexivity]. Qed.

Lemma join_split (c : ascii) (s : string) :
  PyStr.join (String c EmptyString) (PyStr.split c s) = s.
Proof.
  induction s as [|a s IH]; simpl; [reflexivity|].
  destruct (Ascii.eqb_spec a c) as [->|Hne].
  - rewrite join_cons by apply split_not_nil. rewrite IH. reflexivity.
  - pose proof (split_not_nil c s) as Hnil.
    destruct (PyStr.split c s) as [|p ps]; [congruence|].
    destruct ps as [|q ps]; cbn in *; rewrite IH; reflexivity.
Qed.

(** Every string with a colon is a colon-free prefix, the first colon, and
    the rest. *)
Lemma first_colon_decomposition (c : ascii) (s : string) :
  PyStr.contains c s = true ->
  exists pre post,
    s = (pre ++ String c post)%string /\ PyStr.contains c pre = false.
Proof.
  induction s as [|a s IH]; simpl; [discriminate|].
  destruct (Ascii.eqb_spec a c) as [->|Hne].
  - intros _. exists EmptyString, s. split; reflexivity.
  - intros Hs. destruct (IH Hs) as (pre & post & -> & Hpre).
    exists (String a pre), post. split; [reflexivity|].
    simpl. destruct (Ascii.eqb_spec a c); [contradiction|exact Hpre].
Qed.

Lemma rm_genkw_prefix_str_no_colon (s : string) :
  PyStr.contains ":" s = false -> rm_genkw_prefix_str s = s.
Proof. intros Hs. unfold rm_genkw_prefix_str. rewrite Hs. reflexivity. Qed.

Lemma rm_genkw_prefix_str_first_colon (pre post : string) :
  PyStr.contains ":" pre = false ->
  rm_genkw_prefix_str (pre ++ ":" ++ post)%string = post.
Proof.
  intros Hpre. unfold rm_genkw_prefix_str. simpl.
  rewrite contains_app_sep, split_app_sep by exact Hpre.
  simpl. apply join_split.
Qed.

(** C6: a string without a colon is returned unchanged, and a string with
    colons, which is a colon-free prefix followed by its first colon and a
    rest, is mapped to that rest, later colons included. *)
Theorem rm_genkw_prefix_string_rule (pre post : string) :
  PyStr.contains ":" pre = false ->
  rm_genkw_prefix (Str pre) = inr (Str pre) /\
  rm_genkw_prefix (Str (pre ++ ":" ++ post)%string) = inr (Str post).
Proof.
  intros Hpre. simpl rm_genkw_prefix. split.
  - rewrite rm_genkw_prefix_str_no_colon by exact Hpre. reflexivity.
  - f_equal. f_equal. apply rm_genkw_prefix_str_first_colon. exact Hpre.
Qed.

Lemma rm_genkw_prefix_string_rule_witness :
  PyStr.contains ":" "SCAL" = false /\
  rm_genkw_prefix (Str "SCAL") = inr (Str "SCAL") /\
  rm_genkw_prefix (Str "SCAL:INTERPOLATE:WO") = inr (Str "INTERPOLATE:WO").
Proof.
  split; [reflexivity|].
  apply (rm_genkw_prefix_string_rule "SCAL" "INTERPOLATE:WO").
  reflexivity.
Defined.

(** ** Dictionaries *)

Lemma get_set_eq (k : string) (v : pyval) (d : dict) :
  Dict.get k (Dict.set k v d) = Some v.
Proof.
  induction d as [|[k' v'] d IH]; simpl.
  - rewrite String.eqb_refl. reflexivity.
  - destruct (String.eqb k k') eqn:Hk; simpl; rewrite Hk; auto.
Qed.

Lemma get_set_ne (k k' : string) (v : pyval) (d : dict) :
  k <> k' -> Dict.get k' (Dict.set k v d) = Dict.get k' d.
Proof.
  intros Hne. induction d as [|[k0 v0] d IH]; simpl.
  - destruct (String.eqb_spec k' k); [congruence|reflexivity].
  - destruct (String.eqb_spec k k0) as [->|Hk0]; simpl.
    + destruct (String.eqb_spec k' k0); [congruence|reflexivity].
    + rewrite IH. reflexivity.
Qed.

Lemma mem_get (k : string) (d : dict) (v : pyval) :
  Dict.get k d = Some v -> Dict.mem k d = true.
Proof. unfold Dict.mem. intros ->. reflexivity. Qed.

(** After [parameter_dict.update(MAGIC_CASES)] every magic name holds its
    magic value, whatever the dictionary held before. *)
Lemma get_update_magic (d : dict) (k : string) (v : pyval) :
  In (k, v) MAGIC_CASES -> Dict.get k (Dict.update d MAGIC_CASES) = Some v.
Proof.
  unfold MAGIC_CASES, Dict.update. simpl.
  intros H.
  repeat (destruct H as [H|H];
          [injection H as <- <-;
           repeat (rewrite get_set_ne by discriminate);
           apply get_set_eq|]).
  contradiction.
Qed.

(** The update leaves every other name as it was. *)
Lemma get_update_other (d : dict) (k : string) :
  ~ In k (Dict.keys MAGIC_CASES) ->
  Dict.get k (Dict.update d MAGIC_CASES) = Dict.get k d.
Proof.
  unfold MAGIC_CASES, Dict.update, Dict.keys. simpl. intros H.
  repeat (rewrite get_set_ne by (intros <-; apply H; tauto)).
  reflexivity.
Qed.

Lemma magic_key_value (k : string) :
  In k (Dict.keys MAGIC_CASES) -> exists z, In (k, VInt z) MAGIC_CASES.
Proof.
  unfold MAGIC_CASES, Dict.keys. simpl. intros H.
  repeat (destruct H as [<-|H]; [eexists; simpl; eauto 10|]).
  contradiction.
Qed.

(** ** The table of magic cases *)

(** C2, as the table is written: one name for the base case mapping to 0,
    three names for the low case mapping to -1, and three names (not two) for
    the high case mapping to +1; seven names in all. *)
Theorem magic_cases_table :
  magic_names_for 0 = ["__BASE__"] /\
  magic_names_for (-1) = ["__LOW__"; "__PESS__"; "__PESSIMISTIC__"] /\
  magic_names_for 1 = ["__HIGH__"; "__OPT__"; "__OPTIMISTIC__"] /\
  length MAGIC_CASES = 7%nat /\
  NoDup (Dict.keys MAGIC_CASES).
Proof.
  repeat split; try reflexivity.
  unfold MAGIC_CASES, Dict.keys. simpl.
  repeat (constructor; [simpl; intuition discriminate|]).
  constructor.
Qed.

(** C2 as stated fails: the names mapping to +1 are not two. *)
Lemma magic_cases_two_high_names_counterexample :
  ~ (length (magic_names_for 0) = 1%nat /\
     length (magic_names_for (-1)) = 3%nat /\
     length (magic_names_for 1) = 2%nat).
Proof. intros (_ & _ & H). discriminate H. Qed.

(** ** The steps of the script *)

Section Steps.

Context {E : External}.

Variables (w : world) (pf : string).

Lemma delegate_shape (args : pyscal_args pyfloat) :
  exists t r,
    delegate args w = (PyscalMain args :: t, r) /\
    (forall e, In e t -> exists msg, e = Log ERROR msg []).
Proof.
  py_unfold.
  destruct (pyscal_main w args) as [[code|[| msg | msg | key |]]|[]];
    simpl; eexists; eexists; (split; [reflexivity|]); simpl;
    intros e He; try contradiction.
  destruct He as [<-|[]]. eexists. reflexivity.
Qed.

Lemma giv_missing_file (wo go : string) :
  fs w pf = None ->
  _get_interpolation_values wo go pf w =
    ([PathExists pf; Log ERROR "%s does not exists" [AStr pf]],
     inl (Raise IOError)).
Proof. intros Hfs. py_unfold. rewrite Hfs. reflexivity. Qed.

Lemma giv_wo_absent (wo go : string) (lines : list string) (parsed : dict) :
  fs w pf = Some lines ->
  extract_key_value lines = inr parsed ->
  Dict.mem wo (parameter_dict_of parsed) = false ->
  _get_interpolation_values wo go pf w =
    ([PathExists pf; OpenRead pf; not_found_log wo pf],
     inl (Raise (ValueError "Parameter name not found"))).
Proof.
  intros Hfs Hparse Hwo. py_unfold. rewrite Hfs. simpl.
  rewrite Hparse. simpl. rewrite Hwo. reflexivity.
Qed.

Lemma giv_go_absent (wo go : string) (lines : list string) (parsed : dict)
    (v : pyval) (f : pyfloat) :
  fs w pf = Some lines ->
  extract_key_value lines = inr parsed ->
  Dict.get wo (parameter_dict_of parsed) = Some v ->
  float v = inr f ->
  Dict.mem go (parameter_dict_of parsed) = false ->
  _get_interpolation_values wo go pf w =
    ([PathExists pf; OpenRead pf;
      Log INFO "Collected %s from parameter.txt with value %f"
        [AStr wo; AFloat f];
      not_found_log go pf],
     inl (Raise (ValueError "Parameter name not found"))).
Proof.
  intros Hfs Hparse Hwo Hf Hgo. py_unfold. rewrite Hfs. simpl.
  rewrite Hparse. simpl. rewrite (mem_get _ _ _ Hwo), Hwo. simpl.
  rewrite Hf. simpl. rewrite Hgo. reflexivity.
Qed.

Lemma giv_found (wo go : string) (lines : list string) (parsed : dict)
    (vw vg : pyval) (fw fg : pyfloat) :
  fs w pf = Some lines ->
  extract_key_value lines = inr parsed ->
  Dict.get wo (parameter_dict_of parsed) = Some vw ->
  float vw = inr fw ->
  Dict.get go (parameter_dict_of parsed) = Some vg ->
  float vg = inr fg ->
  _get_interpolation_values wo go pf w =
    ([PathExists pf; OpenRead pf;
      Log INFO "Collected %s from parameter.txt with value %f"
        [AStr wo; AFloat fw]]
     ++ (if String.eqb go wo then []
         else [Log INFO "Collected %s from parameter.txt with value %f"
                 [AStr go; AFloat fg]]),
     inr (fw, fg)).
Proof.
  intros Hfs Hparse Hwo Hfw Hgo Hfg. py_unfold. rewrite Hfs. simpl.
  rewrite Hparse. simpl. rewrite (mem_get _ _ _ Hwo), Hwo. simpl.
  rewrite Hfw. simpl. rewrite (mem_get _ _ _ Hgo), Hgo. simpl.
  rewrite Hfg. simpl. destruct (String.eqb go wo); reflexivity.
Qed.

(** What a normal return of [_get_interpolation_values] says about the file
    and the dictionary. *)
Lemma giv_returns_inv (wo go : string) (t : list event) (a b : pyfloat) :
  _get_interpolation_values wo go pf w = (t, inr (a, b)) ->
  exists lines parsed vw vg,
    fs w pf = Some lines /\
    extract_key_value lines = inr parsed /\
    Dict.get wo (parameter_dict_of parsed) = Some vw /\ float vw = inr a /\
    Dict.get go (parameter_dict_of parsed) = Some vg /\ float vg = inr b.
Proof.
  py_unfold. unfold Dict.mem.
  destruct (fs w pf) as [lines|] eqn:Hfs; simpl; [|discriminate].
  destruct (extract_key_value lines) as [e|parsed] eqn:Hparse; simpl;
    [discriminate|].
  destruct (Dict.get wo (parameter_dict_of parsed)) as [vw|] eqn:Hwo; simpl;
    [|discriminate].
  destruct (float vw) as [e|fw] eqn:Hfw; simpl; [discriminate|].
  destruct (Dict.get go (parameter_dict_of parsed)) as [vg|] eqn:Hgo; simpl;
    [|discriminate].
  destruct (float vg) as [e|fg] eqn:Hfg; simpl; [discriminate|].
  destruct (String.eqb go wo); simpl; intros H; injection H as _ <- <-;
    exists lines, parsed, vw, vg; auto 10.
Qed.

(** The not-found error is only ever logged for a name that is not in the
    parameter dictionary. *)
Lemma giv_not_found_log_inv (wo go k : string) :
  In (not_found_log k pf) (fst (_get_interpolation_values wo go pf w)) ->
  exists lines parsed,
    fs w pf = Some lines /\
    extract_key_value lines = inr parsed /\
    Dict.mem k (parameter_dict_of parsed) = false.
Proof.
  py_unfold. unfold not_found_log.
  destruct (fs w pf) as [lines|] eqn:Hfs; simpl;
    [|intros [H|[H|[]]]; discriminate H].
  destruct (extract_key_value lines) as [e|parsed] eqn:Hparse; simpl;
    [intros [H|[H|[]]]; discriminate H|].
  destruct (Dict.mem wo (parameter_dict_of parsed)) eqn:Hwo; simpl.
  2:{ intros [H|[H|[H|[]]]]; try discriminate H.
      injection H as <-. eauto. }
  destruct (Dict.get wo (parameter_dict_of parsed)) as [vw|]; simpl;
    [|intros [H|[H|[]]]; discriminate H].
  destruct (float vw) as [e|fw]; simpl;
    [intros [H|[H|[]]]; discriminate H|].
  destruct (Dict.mem go (parameter_dict_of parsed)) eqn:Hgo; simpl.
  2:{ intros [H|[H|[H|[H|[]]]]]; try discriminate H.
      injection H as <-. eauto. }
  destruct (Dict.get go (parameter_dict_of parsed)) as [vg|]; simpl;
    [|intros [H|[H|[H|[]]]]; discriminate H].
  destruct (float vg) as [e|fg]; simpl;
    [intros [H|[H|[H|[]]]]; discriminate H|].
  destruct (String.eqb go wo); simpl;
    intros H; repeat (destruct H as [H|H]; try discriminate H);
    contradiction.
Qed.

End Steps.

Section RunSteps.

Context {E : External}.

Variables (w : world).
Variables (rp out sheet wo go slgof : string) (family : Z) (pf : string).

Lemma run_missing_relperm :
  fs w rp = None ->
  run rp out sheet wo go slgof family pf w =
    ([PathExists rp; Log ERROR "%s does not exist" [AStr rp]],
     inl (SysExit 1)).
Proof. intros Hfs. py_unfold. rewrite Hfs. reflexivity. Qed.

Lemma run_bad_scenario (l : list string) :
  fs w rp = Some l ->
  scenario_ok wo go = false ->
  run rp out sheet wo go slgof family pf w =
    ([PathExists rp;
      Log ERROR "WaterOil interpolation parameter missing" []],
     inl (SysExit 1)).
Proof.
  unfold scenario_ok. intros Hfs Hsc.
  apply orb_false_iff in Hsc. destruct Hsc as [Hwo Hgo].
  apply negb_false_iff in Hwo.
  py_unfold. cbv zeta. rewrite Hfs, Hwo, Hgo. reflexivity.
Qed.

Lemma run_bad_variant (l : list string) :
  fs w rp = Some l ->
  scenario_ok wo go = true ->
  slgof_ok slgof = false ->
  run rp out sheet wo go slgof family pf w =
    ([PathExists rp; Log ERROR "Only supports sgof or slgof" []],
     inl (SysExit 1)).
Proof.
  unfold scenario_ok, slgof_ok. intros Hfs Hsc Hv.
  py_unfold. cbv zeta. rewrite Hfs, Hv.
  destruct (String.eqb (rm_genkw_prefix_str wo) MAGIC_NONE);
    destruct (String.eqb (rm_genkw_prefix_str go) MAGIC_NONE);
    try discriminate Hsc; reflexivity.
Qed.

Lemma run_bad_family (l : list string) :
  fs w rp = Some l ->
  scenario_ok wo go = true ->
  slgof_ok slgof = true ->
  family_ok family = false ->
  run rp out sheet wo go slgof family pf w =
    ([PathExists rp; Log ERROR "Family must be either 1 or 2" []],
     inl (SysExit 1)).
Proof.
  unfold scenario_ok, slgof_ok, family_ok. intros Hfs Hsc Hv Hfam.
  py_unfold. cbv zeta. rewrite Hfs, Hv, Hfam.
  destruct (String.eqb (rm_genkw_prefix_str wo) MAGIC_NONE);
    destruct (String.eqb (rm_genkw_prefix_str go) MAGIC_NONE);
    try discriminate Hsc; reflexivity.
Qed.

Lemma run_no_interpolation (l : list string) :
  fs w rp = Some l ->
  rm_genkw_prefix_str wo = MAGIC_NONE ->
  rm_genkw_prefix_str go = MAGIC_NONE ->
  slgof_ok slgof = true ->
  family_ok family = true ->
  run rp out sheet wo go slgof family pf w =
    let (t, r) :=
      delegate (pyscal_kwargs rp out sheet slgof family None None) w in
    (PathExists rp :: t, r).
Proof.
  unfold slgof_ok, family_ok. intros Hfs Hwo Hgo Hv Hfam.
  py_unfold. unfold pyscal_kwargs. cbv zeta.
  rewrite Hfs, Hv, Hfam, Hwo, Hgo.
  change (String.eqb MAGIC_NONE MAGIC_NONE) with true. cbn.
  destruct (pyscal_main w _) as [[code|[| msg | msg | key |]]|[]];
    reflexivity.
Qed.

(** With a water-oil name given and the validations passed, [run] resolves
    the two values and hands them to pyscal; a gas-oil name left out is
    replaced by the water-oil name. *)
Lemma run_interpolation (l : list string) :
  fs w rp = Some l ->
  rm_genkw_prefix_str wo <> MAGIC_NONE ->
  slgof_ok slgof = true ->
  family_ok family = true ->
  run rp out sheet wo go slgof family pf w =
    let go' := if String.eqb (rm_genkw_prefix_str go) MAGIC_NONE
               then rm_genkw_prefix_str wo else rm_genkw_prefix_str go in
    match _get_interpolation_values (rm_genkw_prefix_str wo) go' pf w with
    | (t, inl a) => (PathExists rp :: t, inl a)
    | (t, inr (a, b)) =>
        let (t', r) :=
          delegate
            (pyscal_kwargs rp out sheet slgof family (Some a) (Some b)) w in
        (PathExists rp :: t ++ t', r)
    end.
Proof.
  unfold slgof_ok, family_ok. intros Hfs Hwo Hv Hfam.
  apply String.eqb_neq in Hwo.
  unfold run, delegate, pyscal_kwargs, bind, when, ret, raise,
    os_path_exists, logger_error, sys_exit, assert_, try_except_ValueError,
    call_pyscal_main.
  cbv zeta. rewrite Hfs, Hv, Hfam, Hwo.
  destruct (String.eqb (rm_genkw_prefix_str go) MAGIC_NONE);
    cbv beta iota delta [negb andb];
    match goal with
    | |- context [_get_interpolation_values ?a ?b ?c ?d] =>
        destruct (_get_interpolation_values a b c d) as [t [a0|[fa fb]]]
    end; cbn; try reflexivity;
    rewrite app_nil_r;
    destruct (pyscal_main w _) as [[code|[| msg | msg | key |]]|[]];
    reflexivity.
Qed.

End RunSteps.

Section Traces.

Context {E : External}.

Variables (w : world) (pf wo go : string).

(** [_get_interpolation_values] checks and opens the parameters file and
    logs; it does nothing else. *)
Lemma giv_events (e : event) :
  In e (fst (_get_interpolation_values wo go pf w)) ->
  e = PathExists pf \/ e = OpenRead pf \/
  exists lvl fmt args, e = Log lvl fmt args.
Proof.
  py_unfold.
  destruct (fs w pf) as [lines|]; simpl.
  2:{ intros [<-|[<-|[]]]; eauto 6. }
  destruct (extract_key_value lines) as [ex|parsed]; simpl.
  1:{ intros [<-|[<-|[]]]; eauto 6. }
  destruct (Dict.mem wo (parameter_dict_of parsed)); simpl.
  2:{ intros [<-|[<-|[<-|[]]]]; eauto 6. }
  destruct (Dict.get wo (parameter_dict_of parsed)) as [vw|]; simpl.
  2:{ intros [<-|[<-|[]]]; eauto 6. }
  destruct (float vw) as [ex|fw]; simpl.
  1:{ intros [<-|[<-|[]]]; eauto 6. }
  destruct (Dict.mem go (parameter_dict_of parsed)); simpl.
  2:{ intros [<-|[<-|[<-|[<-|[]]]]]; eauto 6. }
  destruct (Dict.get go (parameter_dict_of parsed)) as [vg|]; simpl.
  2:{ intros [<-|[<-|[<-|[]]]]; eauto 6. }
  destruct (float vg) as [ex|fg]; simpl.
  1:{ intros [<-|[<-|[<-|[]]]]; eauto 6. }
  destruct (String.eqb go wo); simpl;
    intros H; repeat (destruct H as [<-|H]; eauto 6); contradiction.
Qed.

(** Its first effect is the existence check of the parameters file. *)
Lemma giv_trace_head :
  exists t, fst (_get_interpolation_values wo go pf w) = PathExists pf :: t.
Proof.
  unfold _get_interpolation_values. unfold bind at 1.
  unfold os_path_exists at 1.
  match goal with
  | |- context [let (t', r) := ?m in _] => destruct m as [t' r]
  end.
  eexists. reflexivity.
Qed.

End Traces.

Lemma scenario_ok_false (wo go : string) :
  scenario_ok wo go = false <->
  rm_genkw_prefix_str wo = MAGIC_NONE /\ rm_genkw_prefix_str go <> MAGIC_NONE.
Proof.
  unfold scenario_ok. rewrite orb_false_iff, negb_false_iff.
  rewrite String.eqb_eq, String.eqb_neq. tauto.
Qed.

Lemma scenario_ok_given (wo go : string) :
  rm_genkw_prefix_str wo <> MAGIC_NONE -> scenario_ok wo go = true.
Proof.
  unfold scenario_ok. intros H. apply String.eqb_neq in H. rewrite H.
  reflexivity.
Qed.

Section SharedValue.

Context {E : External}.

(** A run with only the water-oil name given, whose name is in the parameter
    dictionary with a value [float] accepts: pyscal is called with that
    float for both interpolation parameters. *)
Lemma run_shared_value
    (w : world) (rp out sheet wo go slgof : string) (family : Z)
    (pf : string) (l lines : list string) (parsed : dict)
    (v : pyval) (f : pyfloat) :
  rm_genkw_prefix_str wo <> MAGIC_NONE ->
  rm_genkw_prefix_str go = MAGIC_NONE ->
  fs w rp = Some l ->
  slgof_ok slgof = true ->
  family_ok family = true ->
  fs w pf = Some lines ->
  extract_key_value lines = inr parsed ->
  Dict.get (rm_genkw_prefix_str wo) (parameter_dict_of parsed) = Some v ->
  float v = inr f ->
  exists t r,
    run rp out sheet wo go slgof family pf w =
      ([PathExists rp; PathExists pf; OpenRead pf;
        Log INFO "Collected %s from parameter.txt with value %f"
          [AStr (rm_genkw_prefix_str wo); AFloat f];
        PyscalMain
          (pyscal_kwargs rp out sheet slgof family (Some f) (Some f))]
       ++ t, r) /\
    (forall e, In e t -> exists msg, e = Log ERROR msg []).
Proof.
  intros Hwo Hgo Hrp Hv Hfam Hpf Hparse Hget Hf.
  rewrite (run_interpolation w rp out sheet wo go slgof family pf l)
    by assumption.
  apply String.eqb_eq in Hgo. rewrite Hgo. cbv zeta.
  rewrite (giv_found w pf _ _ lines parsed v v f f) by assumption.
  rewrite String.eqb_refl.
  destruct (delegate_shape w
              (pyscal_kwargs rp out sheet slgof family (Some f) (Some f)))
    as (t & r & Hd & Ht).
  rewrite Hd. exists t, r. split; [reflexivity|exact Ht].
Qed.

End SharedValue.

(** * The claims *)

Section Claims.

Context {E : External}.

(** C1, as the code has it: the magic cases are written into the parameter
    dictionary after the file was loaded, so a magic name resolves to its
    magic constant whether or not the file defines that name; an entry of
    the file with a magic name is overwritten. *)
Theorem magic_case_overrides_file
    (w : world) (pf : string) (lines : list string) (parsed : dict)
    (k : string) (z : Z) :
  fs w pf = Some lines ->
  extract_key_value lines = inr parsed ->
  In (k, VInt z) MAGIC_CASES ->
  Dict.get k (parameter_dict_of parsed) = Some (VInt z) /\
  _get_interpolation_values k k pf w =
    ([PathExists pf; OpenRead pf;
      Log INFO "Collected %s from parameter.txt with value %f"
        [AStr k; AFloat (float_of_int z)]],
     inr (float_of_int z, float_of_int z)).
Proof.
  intros Hfs Hparse Hk.
  assert (Hget : Dict.get k (parameter_dict_of parsed) = Some (VInt z))
    by (apply get_update_magic; exact Hk).
  split; [exact Hget|].
  rewrite (giv_found w pf k k lines parsed (VInt z) (VInt z)
             (float_of_int z) (float_of_int z)); auto.
  rewrite String.eqb_refl. reflexivity.
Qed.

(** C3, as the code has it: [run] checks that the relperm file exists, then
    settles the interpolation scenario (and exits on a gas-oil name without a
    water-oil name), then checks the keyword variant, then the family; each
    failure exits with status 1 after one error log and before the
    parameters file is looked at, which happens first thing once all four
    checks have passed and a water-oil name is given. *)
Theorem validation_order
    (w : world) (rp out sheet wo go slgof : string) (family : Z)
    (pf : string) (l : list string) :
  (fs w rp = None ->
   run rp out sheet wo go slgof family pf w =
     ([PathExists rp; Log ERROR "%s does not exist" [AStr rp]],
      inl (SysExit 1))) /\
  (fs w rp = Some l -> scenario_ok wo go = false ->
   run rp out sheet wo go slgof family pf w =
     ([PathExists rp;
       Log ERROR "WaterOil interpolation parameter missing" []],
      inl (SysExit 1))) /\
  (fs w rp = Some l -> scenario_ok wo go = true -> slgof_ok slgof = false ->
   run rp out sheet wo go slgof family pf w =
     ([PathExists rp; Log ERROR "Only supports sgof or slgof" []],
      inl (SysExit 1))) /\
  (fs w rp = Some l -> scenario_ok wo go = true -> slgof_ok slgof = true ->
   family_ok family = false ->
   run rp out sheet wo go slgof family pf w =
     ([PathExists rp; Log ERROR "Family must be either 1 or 2" []],
      inl (SysExit 1))) /\
  (fs w rp = Some l -> rm_genkw_prefix_str wo <> MAGIC_NONE ->
   slgof_ok slgof = true -> family_ok family = true ->
   exists t,
     fst (run rp out sheet wo go slgof family pf w) =
       PathExists rp :: PathExists pf :: t).
Proof.
  repeat split.
  - apply run_missing_relperm.
  - apply run_bad_scenario.
  - apply run_bad_variant.
  - apply run_bad_family.
  - intros Hfs Hwo Hv Hfam.
    rewrite (run_interpolation w rp out sheet wo go slgof family pf l)
      by assumption.
    cbv zeta.
    match goal with
    | |- context [_get_interpolation_values ?a ?b ?c ?d] =>
        destruct (giv_trace_head d c a b) as [t Ht];
        destruct (_get_interpolation_values a b c d) as [t0 [ab|[fa fb]]]
    end; simpl in Ht; subst t0.
    + eexists. reflexivity.
    + destruct (delegate _ w) as [t' r]. eexists. reflexivity.
Qed.

(** C4, as the code has it: the names are compared with the sentinel after
    normalisation.  When the normalised gas-oil name is not the sentinel and
    the normalised water-oil name is, [run] exits with status 1 having done
    nothing but check the relperm file and log one error: the parameters
    file is neither checked nor opened. *)
Theorem gas_oil_only_exits
    (w : world) (rp out sheet wo go slgof : string) (family : Z)
    (pf : string) :
  rm_genkw_prefix_str wo = MAGIC_NONE ->
  rm_genkw_prefix_str go <> MAGIC_NONE ->
  (exists fmt args,
     run rp out sheet wo go slgof family pf w =
       ([PathExists rp; Log ERROR fmt args], inl (SysExit 1))) /\
  opens_a_file (fst (run rp out sheet wo go slgof family pf w)) = false.
Proof.
  intros Hwo Hgo.
  assert (Hsc : scenario_ok wo go = false)
    by (apply scenario_ok_false; auto).
  destruct (fs w rp) as [l|] eqn:Hfs.
  - rewrite (run_bad_scenario w rp out sheet wo go slgof family pf l)
      by assumption.
    split; [eauto|reflexivity].
  - rewrite run_missing_relperm by assumption.
    split; [eauto|reflexivity].
Qed.

(** C5, as the code has it: the names are compared with the sentinel after
    normalisation.  With the normalised water-oil name not the sentinel and
    the normalised gas-oil name the sentinel, whenever pyscal is called its
    two interpolation values are the same float, read from the parameter
    dictionary under the normalised water-oil name; and it is called that
    way whenever the validations pass and that name is in the dictionary
    with a value [float] accepts. *)
Theorem water_oil_only_shares_value
    (w : world) (rp out sheet wo go slgof : string) (family : Z)
    (pf : string) :
  rm_genkw_prefix_str wo <> MAGIC_NONE ->
  rm_genkw_prefix_str go = MAGIC_NONE ->
  (forall args,
     In (PyscalMain args) (fst (run rp out sheet wo go slgof family pf w)) ->
     exists lines parsed v f,
       fs w pf = Some lines /\
       extract_key_value lines = inr parsed /\
       Dict.get (rm_genkw_prefix_str wo) (parameter_dict_of parsed) = Some v /\
       float v = inr f /\
       int_param_wo args = Some f /\ int_param_go args = Some f) /\
  (forall l lines parsed v f,
     fs w rp = Some l -> slgof_ok slgof = true -> family_ok family = true ->
     fs w pf = Some lines ->
     extract_key_value lines = inr parsed ->
     Dict.get (rm_genkw_prefix_str wo) (parameter_dict_of parsed) = Some v ->
     float v = inr f ->
     In (PyscalMain
           (pyscal_kwargs rp out sheet slgof family (Some f) (Some f)))
        (fst (run rp out sheet wo go slgof family pf w))).
Proof.
  intros Hwo Hgo. split.
  - intros args Hin.
    pose proof (scenario_ok_given wo go Hwo) as Hsc.
    destruct (fs w rp) as [l|] eqn:Hrp.
    2:{ rewrite run_missing_relperm in Hin by assumption. simpl in Hin.
        destruct Hin as [H|[H|[]]]; discriminate H. }
    destruct (slgof_ok slgof) eqn:Hv.
    2:{ rewrite (run_bad_variant w rp out sheet wo go slgof family pf l)
          in Hin by assumption.
        simpl in Hin. destruct Hin as [H|[H|[]]]; discriminate H. }
    destruct (family_ok family) eqn:Hfam.
    2:{ rewrite (run_bad_family w rp out sheet wo go slgof family pf l)
          in Hin by assumption.
        simpl in Hin. destruct Hin as [H|[H|[]]]; discriminate H. }
    rewrite (run_interpolation w rp out sheet wo go slgof family pf l)
      in Hin by assumption.
    apply String.eqb_eq in Hgo. rewrite Hgo in Hin. cbv zeta in Hin.
    destruct (_get_interpolation_values
                (rm_genkw_prefix_str wo) (rm_genkw_prefix_str wo) pf w)
      as [t [a|[fa fb]]] eqn:Hgiv.
    + simpl in Hin. destruct Hin as [H|H]; [discriminate H|].
      assert (Hev := giv_events w pf (rm_genkw_prefix_str wo)
                      (rm_genkw_prefix_str wo) (PyscalMain args)).
      rewrite Hgiv in Hev.
      destruct (Hev H) as [H'|[H'|(? & ? & ? & H')]]; discriminate H'.
    + destruct (giv_returns_inv w pf _ _ _ _ _ Hgiv)
        as (lines & parsed & vw & vg & Hpf & Hparse & Hvw & Hfa & Hvg & Hfb).
      rewrite Hvw in Hvg. injection Hvg as <-.
      rewrite Hfa in Hfb. injection Hfb as <-.
      destruct (delegate_shape w
                  (pyscal_kwargs rp out sheet slgof family
                     (Some fa) (Some fa)))
        as (t' & r & Hd & Ht').
      rewrite Hd in Hin. simpl in Hin.
      destruct Hin as [H|H]; [discriminate H|].
      apply in_app_or in H. destruct H as [H|[H|H]].
      * assert (Hev := giv_events w pf (rm_genkw_prefix_str wo)
                      (rm_genkw_prefix_str wo) (PyscalMain args)).
        rewrite Hgiv in Hev.
        destruct (Hev H) as [H'|[H'|(? & ? & ? & H')]]; discriminate H'.
      * injection H as <-. exists lines, parsed, vw, fa. auto 10.
      * destruct (Ht' _ H) as [msg H']. discriminate H'.
  - intros l lines parsed v f Hrp Hv Hfam Hpf Hparse Hget Hf.
    destruct (run_shared_value w rp out sheet wo go slgof family pf
                l lines parsed v f) as (t & r & Hrun & _); try assumption.
    rewrite Hrun. simpl. auto 10.
Qed.

(** C7: once interpolation is requested and the validations have passed, a
    missing parameters file makes [run] end in the raised [IOError], and a
    requested name that is not in the parameter dictionary makes it end in
    the raised [ValueError] with the message [Parameter name not found];
    neither is caught in [run], pyscal is not called, and the two exceptions
    differ. *)
Theorem resolution_errors_propagate
    (w : world) (rp out sheet wo go slgof : string) (family : Z)
    (pf : string) (l : list string) :
  fs w rp = Some l ->
  rm_genkw_prefix_str wo <> MAGIC_NONE ->
  slgof_ok slgof = true ->
  family_ok family = true ->
  let wo' := rm_genkw_prefix_str wo in
  let go' := if String.eqb (rm_genkw_prefix_str go) MAGIC_NONE
             then rm_genkw_prefix_str wo else rm_genkw_prefix_str go in
  (fs w pf = None ->
   run rp out sheet wo go slgof family pf w =
     ([PathExists rp; PathExists pf;
       Log ERROR "%s does not exists" [AStr pf]],
      inl (Raise IOError))) /\
  (forall lines parsed,
     fs w pf = Some lines ->
     extract_key_value lines = inr parsed ->
     Dict.mem wo' (parameter_dict_of parsed) = false ->
     run rp out sheet wo go slgof family pf w =
       ([PathExists rp; PathExists pf; OpenRead pf; not_found_log wo' pf],
        inl (Raise (ValueError "Parameter name not found")))) /\
  (forall lines parsed v f,
     fs w pf = Some lines ->
     extract_key_value lines = inr parsed ->
     Dict.get wo' (parameter_dict_of parsed) = Some v ->
     float v = inr f ->
     Dict.mem go' (parameter_dict_of parsed) = false ->
     run rp out sheet wo go slgof family pf w =
       ([PathExists rp; PathExists pf; OpenRead pf;
         Log INFO "Collected %s from parameter.txt with value %f"
           [AStr wo'; AFloat f];
         not_found_log go' pf],
        inl (Raise (ValueError "Parameter name not found")))) /\
  (forall msg, Raise IOError <> Raise (ValueError msg)).
Proof.
  intros Hrp Hwo Hv Hfam wo' go'.
  pose proof (run_interpolation w rp out sheet wo go slgof family pf l
                Hrp Hwo Hv Hfam) as Hrun.
  cbv zeta in Hrun. subst wo' go'.
  repeat split.
  - intros Hpf. rewrite Hrun, giv_missing_file by assumption. reflexivity.
  - intros lines parsed Hpf Hparse Hmem.
    rewrite Hrun, (giv_wo_absent w pf _ _ lines parsed) by assumption.
    reflexivity.
  - intros lines parsed v f Hpf Hparse Hget Hf Hmem.
    rewrite Hrun, (giv_go_absent w pf _ _ lines parsed v f)
      by assumption.
    reflexivity.
  - intros msg H. discriminate H.
Qed.

(** C8: a water-oil name whose part after the first colon is the sentinel
    normalises to the sentinel, and with the gas-oil name at the sentinel
    [run] goes straight from the relperm check to pyscal, with both
    interpolation values absent and the parameters file untouched. *)
Theorem namespaced_sentinel_is_unspecified
    (w : world) (rp out sheet ns slgof : string) (family : Z)
    (pf : string) (l : list string) :
  PyStr.contains ":" ns = false ->
  fs w rp = Some l ->
  slgof_ok slgof = true ->
  family_ok family = true ->
  let wo := (ns ++ ":" ++ MAGIC_NONE)%string in
  wo <> MAGIC_NONE /\
  rm_genkw_prefix_str wo = MAGIC_NONE /\
  exists t r,
    run rp out sheet wo MAGIC_NONE slgof family pf w =
      (PathExists rp
       :: PyscalMain (pyscal_kwargs rp out sheet slgof family None None)
       :: t, r) /\
    (forall e, In e t -> exists msg, e = Log ERROR msg []).
Proof.
  intros Hns Hrp Hv Hfam wo.
  assert (Hwo : rm_genkw_prefix_str wo = MAGIC_NONE)
    by (apply rm_genkw_prefix_str_first_colon; exact Hns).
  split.
  { intros Heq. pose proof (contains_app_sep ":" ns MAGIC_NONE) as Hc.
    change (ns ++ String ":" MAGIC_NONE)%string with wo in Hc.
    rewrite Heq in Hc. discriminate Hc. }
  split; [exact Hwo|].
  rewrite (run_no_interpolation w rp out sheet wo MAGIC_NONE slgof family
             pf l) by (auto; reflexivity).
  destruct (delegate_shape w
              (pyscal_kwargs rp out sheet slgof family None None))
    as (t & r & Hd & Ht).
  rewrite Hd. exists t, r. split; [reflexivity|exact Ht].
Qed.

(** C9: a magic name is in the parameter dictionary whatever the file
    holds, so [_get_interpolation_values] never logs the not-found error for
    it, and with the file there and parsed, two magic names are resolved to
    their constants. *)
Theorem magic_name_always_found (k : string) :
  In k (Dict.keys MAGIC_CASES) ->
  (forall parsed, Dict.mem k (parameter_dict_of parsed) = true) /\
  (forall w pf wo go,
     ~ In (not_found_log k pf)
          (fst (_get_interpolation_values wo go pf w))) /\
  (forall w pf lines parsed k',
     In k' (Dict.keys MAGIC_CASES) ->
     fs w pf = Some lines ->
     extract_key_value lines = inr parsed ->
     exists t z z',
       In (k, VInt z) MAGIC_CASES /\ In (k', VInt z') MAGIC_CASES /\
       _get_interpolation_values k k' pf w =
         (t, inr (float_of_int z, float_of_int z'))).
Proof.
  intros Hk.
  destruct (magic_key_value k Hk) as [z Hz].
  assert (Hmem : forall parsed, Dict.mem k (parameter_dict_of parsed) = true).
  { intros parsed. apply (mem_get _ _ (VInt z)).
    apply get_update_magic. exact Hz. }
  split; [exact Hmem|]. split.
  - intros w pf wo go Hin.
    destruct (giv_not_found_log_inv w pf wo go k Hin)
      as (lines & parsed & _ & _ & Habs).
    rewrite Hmem in Habs. discriminate Habs.
  - intros w pf lines parsed k' Hk' Hpf Hparse.
    destruct (magic_key_value k' Hk') as [z' Hz'].
    eexists. exists z, z'. split; [exact Hz|]. split; [exact Hz'|].
    apply (giv_found w pf k k' lines parsed (VInt z) (VInt z')); auto.
    + apply get_update_magic. exact Hz.
    + apply get_update_magic. exact Hz'.
Qed.

End Claims.

(** * The claims on a concrete run directory *)

Lemma fixture_parses :
  extract_key_value (External := Fixture.ext) Fixture.params_lines
  = inr Fixture.params_parsed.
Proof. reflexivity. Qed.

Lemma magic_case_overrides_file_witness :
  fs Fixture.w_params "parameters.txt" = Some Fixture.params_lines /\
  extract_key_value (External := Fixture.ext) Fixture.params_lines
    = inr Fixture.params_parsed /\
  In ("__HIGH__", VInt 1) MAGIC_CASES /\
  Dict.get "__HIGH__" (parameter_dict_of Fixture.params_parsed)
    = Some (VInt 1) /\
  _get_interpolation_values (E := Fixture.ext)
    "__HIGH__" "__HIGH__" "parameters.txt" Fixture.w_params =
    ([PathExists "parameters.txt"; OpenRead "parameters.txt";
      Log INFO "Collected %s from parameter.txt with value %f"
        [AStr "__HIGH__"; AFloat (float_of_int 1)]],
     inr (float_of_int 1, float_of_int 1)).
Proof.
  assert (H1 : fs Fixture.w_params "parameters.txt"
               = Some Fixture.params_lines) by reflexivity.
  assert (H3 : In ("__HIGH__", VInt 1) MAGIC_CASES) by (simpl; tauto).
  split; [exact H1|]. split; [reflexivity|]. split; [exact H3|].
  exact (magic_case_overrides_file (E := Fixture.ext)
           Fixture.w_params "parameters.txt" Fixture.params_lines
           Fixture.params_parsed "__HIGH__" 1 H1 eq_refl H3).
Defined.

(** C1 as stated fails: [parameters.txt] defines [__HIGH__] as -0.25, and
    the name still resolves to the magic 1. *)
Lemma file_entry_shadows_magic_counterexample :
  fs Fixture.w_params "parameters.txt" = Some Fixture.params_lines /\
  extract_key_value (External := Fixture.ext) Fixture.params_lines
    = inr Fixture.params_parsed /\
  Dict.get "__HIGH__" (rm_genkw_prefix_dict Fixture.params_parsed)
    = Some (VStr "-0.25") /\
  float (E := Fixture.ext) (VStr "-0.25") = inr (-1 # 4) /\
  snd (_get_interpolation_values (E := Fixture.ext)
         "__HIGH__" "__HIGH__" "parameters.txt" Fixture.w_params)
    = inr (1 # 1, 1 # 1) /\
  snd (_get_interpolation_values (E := Fixture.ext)
         "__HIGH__" "__HIGH__" "parameters.txt" Fixture.w_params)
    <> inr (-1 # 4, -1 # 4).
Proof.
  repeat split; try reflexivity.
  intros H. vm_compute in H. discriminate H.
Qed.

Lemma validation_order_witness :
  run (E := Fixture.ext) "missing.csv" "out.inc" "__NONE__"
      "__NONE__" "GASOIL" "foo" 3 "parameters.txt" Fixture.w_params =
    ([PathExists "missing.csv";
      Log ERROR "%s does not exist" [AStr "missing.csv"]],
     inl (SysExit 1)) /\
  run (E := Fixture.ext) "relperm.csv" "out.inc" "__NONE__"
      "__NONE__" "GASOIL" "foo" 3 "parameters.txt" Fixture.w_params =
    ([PathExists "relperm.csv";
      Log ERROR "WaterOil interpolation parameter missing" []],
     inl (SysExit 1)) /\
  run (E := Fixture.ext) "relperm.csv" "out.inc" "__NONE__"
      "MYPARAM" "__NONE__" "foo" 3 "parameters.txt" Fixture.w_params =
    ([PathExists "relperm.csv"; Log ERROR "Only supports sgof or slgof" []],
     inl (SysExit 1)) /\
  run (E := Fixture.ext) "relperm.csv" "out.inc" "__NONE__"
      "MYPARAM" "__NONE__" "SLGOF" 3 "parameters.txt" Fixture.w_params =
    ([PathExists "relperm.csv"; Log ERROR "Family must be either 1 or 2" []],
     inl (SysExit 1)) /\
  (exists t,
     fst (run (E := Fixture.ext) "relperm.csv" "out.inc" "__NONE__"
            "MYPARAM" "__NONE__" "SLGOF" 2 "parameters.txt"
            Fixture.w_params) =
       PathExists "relperm.csv" :: PathExists "parameters.txt" :: t).
Proof.
  split.
  { apply (validation_order (E := Fixture.ext) Fixture.w_params
             "missing.csv" "out.inc" "__NONE__" "__NONE__" "GASOIL" "foo" 3
             "parameters.txt" []).
    reflexivity. }
  split.
  { apply (validation_order (E := Fixture.ext) Fixture.w_params
             "relperm.csv" "out.inc" "__NONE__" "__NONE__" "GASOIL" "foo" 3
             "parameters.txt" Fixture.relperm_lines); reflexivity. }
  split.
  { apply (validation_order (E := Fixture.ext) Fixture.w_params
             "relperm.csv" "out.inc" "__NONE__" "MYPARAM" "__NONE__" "foo" 3
             "parameters.txt" Fixture.relperm_lines); reflexivity. }
  split.
  { apply (validation_order (E := Fixture.ext) Fixture.w_params
             "relperm.csv" "out.inc" "__NONE__" "MYPARAM" "__NONE__" "SLGOF"
             3 "parameters.txt" Fixture.relperm_lines); reflexivity. }
  apply (validation_order (E := Fixture.ext) Fixture.w_params
           "relperm.csv" "out.inc" "__NONE__" "MYPARAM" "__NONE__" "SLGOF"
           2 "parameters.txt" Fixture.relperm_lines);
    try reflexivity.
  intros H. vm_compute in H. discriminate H.
Defined.

(** C3 as stated fails: with the relperm file there, an unknown keyword
    variant and only the gas-oil name given, [run] exits on the scenario,
    and the variant error is never logged. *)
Lemma variant_checked_before_scenario_counterexample :
  fs Fixture.w_params "relperm.csv" = Some Fixture.relperm_lines /\
  slgof_ok "foo" = false /\
  rm_genkw_prefix_str "__NONE__" = MAGIC_NONE /\
  rm_genkw_prefix_str "GASOIL" <> MAGIC_NONE /\
  run (E := Fixture.ext) "relperm.csv" "out.inc" "__NONE__"
      "__NONE__" "GASOIL" "foo" 1 "parameters.txt" Fixture.w_params =
    ([PathExists "relperm.csv";
      Log ERROR "WaterOil interpolation parameter missing" []],
     inl (SysExit 1)) /\
  ~ In (Log ERROR "Only supports sgof or slgof" [])
       (fst (run (E := Fixture.ext) "relperm.csv" "out.inc" "__NONE__"
               "__NONE__" "GASOIL" "foo" 1 "parameters.txt"
               Fixture.w_params)).
Proof.
  repeat split; try reflexivity.
  - intros H. vm_compute in H. discriminate H.
  - intros H. vm_compute in H. destruct H as [H|[H|[]]]; discriminate H.
Qed.

Lemma gas_oil_only_exits_witness :
  rm_genkw_prefix_str "__NONE__" = MAGIC_NONE /\
  rm_genkw_prefix_str "SCAL:GASOIL" <> MAGIC_NONE /\
  (exists fmt args,
     run (E := Fixture.ext) "relperm.csv" "out.inc" "__NONE__"
         "__NONE__" "SCAL:GASOIL" "sgof" 1 "parameters.txt"
         Fixture.w_params =
       ([PathExists "relperm.csv"; Log ERROR fmt args], inl (SysExit 1))) /\
  opens_a_file
    (fst (run (E := Fixture.ext) "relperm.csv" "out.inc" "__NONE__"
            "__NONE__" "SCAL:GASOIL" "sgof" 1 "parameters.txt"
            Fixture.w_params)) = false.
Proof.
  assert (H2 : rm_genkw_prefix_str "SCAL:GASOIL" <> MAGIC_NONE)
    by (intros H; vm_compute in H; discriminate H).
  split; [reflexivity|]. split; [exact H2|].
  exact (gas_oil_only_exits (E := Fixture.ext) Fixture.w_params
           "relperm.csv" "out.inc" "__NONE__" "__NONE__" "SCAL:GASOIL"
           "sgof" 1 "parameters.txt" eq_refl H2).
Defined.

Lemma water_oil_only_shares_value_witness :
  rm_genkw_prefix_str "SCAL:MYPARAM" <> MAGIC_NONE /\
  rm_genkw_prefix_str "__NONE__" = MAGIC_NONE /\
  In (PyscalMain
        (pyscal_kwargs (E := Fixture.ext) "relperm.csv" "out.inc" "__NONE__"
           "sgof" 1 (Some (1 # 2)) (Some (1 # 2))))
     (fst (run (E := Fixture.ext) "relperm.csv" "out.inc" "__NONE__"
             "SCAL:MYPARAM" "__NONE__" "sgof" 1 "parameters.txt"
             Fixture.w_params)).
Proof.
  assert (H1 : rm_genkw_prefix_str "SCAL:MYPARAM" <> MAGIC_NONE)
    by (intros H; vm_compute in H; discriminate H).
  split; [exact H1|]. split; [reflexivity|].
  destruct (water_oil_only_shares_value (E := Fixture.ext) Fixture.w_params
              "relperm.csv" "out.inc" "__NONE__" "SCAL:MYPARAM" "__NONE__"
              "sgof" 1 "parameters.txt" H1 eq_refl) as [_ Hcall].
  exact (Hcall Fixture.relperm_lines Fixture.params_lines
           Fixture.params_parsed (VStr "0.5") (1 # 2)
           eq_refl eq_refl eq_refl eq_refl eq_refl eq_refl eq_refl).
Defined.

Lemma resolution_errors_propagate_witness :
  fs Fixture.w_params "relperm.csv" = Some Fixture.relperm_lines /\
  rm_genkw_prefix_str "NOPE" <> MAGIC_NONE /\
  slgof_ok "sgof" = true /\
  family_ok 1 = true /\
  run (E := Fixture.ext) "relperm.csv" "out.inc" "__NONE__"
      "NOPE" "__NONE__" "sgof" 1 "parameters.txt" Fixture.w_no_params =
    ([PathExists "relperm.csv"; PathExists "parameters.txt";
      Log ERROR "%s does not exists" [AStr "parameters.txt"]],
     inl (Raise IOError)) /\
  run (E := Fixture.ext) "relperm.csv" "out.inc" "__NONE__"
      "NOPE" "__NONE__" "sgof" 1 "parameters.txt" Fixture.w_params =
    ([PathExists "relperm.csv"; PathExists "parameters.txt";
      OpenRead "parameters.txt"; not_found_log "NOPE" "parameters.txt"],
     inl (Raise (ValueError "Parameter name not found"))).
Proof.
  assert (H1 : rm_genkw_prefix_str "NOPE" <> MAGIC_NONE)
    by (intros H; vm_compute in H; discriminate H).
  split; [reflexivity|]. split; [exact H1|].
  split; [reflexivity|]. split; [reflexivity|].
  split.
  - destruct (resolution_errors_propagate (E := Fixture.ext)
                Fixture.w_no_params "relperm.csv" "out.inc" "__NONE__"
                "NOPE" "__NONE__" "sgof" 1 "parameters.txt"
                Fixture.relperm_lines eq_refl H1 eq_refl eq_refl)
      as [Hio _].
    exact (Hio eq_refl).
  - destruct (resolution_errors_propagate (E := Fixture.ext)
                Fixture.w_params "relperm.csv" "out.inc" "__NONE__"
                "NOPE" "__NONE__" "sgof" 1 "parameters.txt"
                Fixture.relperm_lines eq_refl H1 eq_refl eq_refl)
      as (_ & Hval & _).
    exact (Hval Fixture.params_lines Fixture.params_parsed
             eq_refl eq_refl eq_refl).
Defined.

Lemma namespaced_sentinel_is_unspecified_witness :
  PyStr.contains ":" "NS" = false /\
  fs Fixture.w_params "relperm.csv" = Some Fixture.relperm_lines /\
  slgof_ok "sgof" = true /\
  family_ok 1 = true /\
  "NS:__NONE__" <> MAGIC_NONE /\
  rm_genkw_prefix_str "NS:__NONE__" = MAGIC_NONE /\
  exists t r,
    run (E := Fixture.ext) "relperm.csv" "out.inc" "__NONE__"
        "NS:__NONE__" MAGIC_NONE "sgof" 1 "parameters.txt"
        Fixture.w_params =
      (PathExists "relperm.csv"
       :: PyscalMain
            (pyscal_kwargs "relperm.csv" "out.inc" "__NONE__" "sgof" 1
               None None)
       :: t, r) /\
    (forall e, In e t -> exists msg, e = Log ERROR msg []).
Proof.
  split; [reflexivity|]. split; [reflexivity|].
  split; [reflexivity|]. split; [reflexivity|].
  exact (namespaced_sentinel_is_unspecified (E := Fixture.ext)
           Fixture.w_params "relperm.csv" "out.inc" "__NONE__" "NS" "sgof" 1
           "parameters.txt" Fixture.relperm_lines
           eq_refl eq_refl eq_refl eq_refl).
Defined.

Lemma magic_name_always_found_witness :
  In "__OPT__" (Dict.keys MAGIC_CASES) /\
  Dict.mem "__OPT__" (parameter_dict_of Fixture.params_parsed) = true /\
  ~ In (not_found_log "__OPT__" "parameters.txt")
       (fst (_get_interpolation_values (E := Fixture.ext)
               "__OPT__" "NOPE" "parameters.txt" Fixture.w_params)) /\
  exists t z z',
    In ("__OPT__", VInt z) MAGIC_CASES /\
    In ("__PESS__", VInt z') MAGIC_CASES /\
    _get_interpolation_values (E := Fixture.ext)
      "__OPT__" "__PESS__" "parameters.txt" Fixture.w_params =
      (t, inr (float_of_int z, float_of_int z')).
Proof.
  assert (H1 : In "__OPT__" (Dict.keys MAGIC_CASES)) by (simpl; tauto).
  assert (H2 : In "__PESS__" (Dict.keys MAGIC_CASES)) by (simpl; tauto).
  split; [exact H1|].
  destruct (magic_name_always_found (E := Fixture.ext) "__OPT__" H1)
    as (Hmem & Hlog & Hres).
  split; [apply Hmem|]. split; [apply Hlog|].
  exact (Hres Fixture.w_params "parameters.txt" Fixture.params_lines
           Fixture.params_parsed "__PESS__" H2 eq_refl eq_refl).
Defined.


(** * Further properties of the script *)

(** ** The name normaliser on strings *)

Lemma length_append (a b : string) :
  String.length (a ++ b)%string = (String.length a + String.length b)%nat.
Proof. induction a as [|c a IH]; simpl; [reflexivity|]. rewrite IH. reflexivity. Qed.

Lemma count_char_append (c : ascii) (a b : string) :
  count_char c (a ++ b)%string = (count_char c a + count_char c b)%nat.
Proof.
  induction a as [|x a IH]; simpl; [reflexivity|].
  destruct (Ascii.eqb x c); rewrite IH; reflexivity.
Qed.

Lemma count_char_none (c : ascii) (s : string) :
  PyStr.contains c s = false -> count_char c s = O.
Proof.
  induction s as [|x s IH]; simpl; [reflexivity|].
  destruct (Ascii.eqb x c); [discriminate|exact IH].
Qed.

(** The normaliser leaves a name alone exactly when the name has no colon:
    a namespaced name is always changed. *)
Theorem rm_genkw_prefix_fixed_points (s : string) :
  rm_genkw_prefix (Str s) = inr (Str s) <-> PyStr.contains ":" s = false.
Proof.
  simpl. split.
  - intros H. injection H as H.
    destruct (PyStr.contains ":" s) eqn:Hc; [|reflexivity].
    destruct (first_colon_decomposition ":" s Hc) as (pre & post & -> & Hpre).
    change (pre ++ String ":" post)%string
      with (pre ++ ":" ++ post)%string in H.
    rewrite rm_genkw_prefix_str_first_colon in H by exact Hpre.
    apply (f_equal String.length) in H.
    rewrite length_append in H. simpl in H. lia.
  - intros Hc. rewrite rm_genkw_prefix_str_no_colon by exact Hc. reflexivity.
Qed.

(** One pass strips one namespace level: on a name with a colon the result
    is strictly shorter and has exactly one colon fewer, so a name with two
    prefixes still carries one after normalisation. *)
Theorem rm_genkw_prefix_strips_one_level (s : string) :
  PyStr.contains ":" s = true ->
  S (count_char ":" (rm_genkw_prefix_str s)) = count_char ":" s /\
  (String.length (rm_genkw_prefix_str s) < String.length s)%nat.
Proof.
  intros Hc.
  destruct (first_colon_decomposition ":" s Hc) as (pre & post & -> & Hpre).
  change (pre ++ String ":" post)%string with (pre ++ ":" ++ post)%string.
  rewrite rm_genkw_prefix_str_first_colon by exact Hpre.
  rewrite count_char_append, length_append, (count_char_none _ _ Hpre).
  simpl. split; lia.
Qed.

Lemma rm_genkw_prefix_strips_one_level_witness :
  PyStr.contains ":" "DESIGN:SCAL:WO" = true /\
  S (count_char ":" (rm_genkw_prefix_str "DESIGN:SCAL:WO"))
    = count_char ":" "DESIGN:SCAL:WO" /\
  (String.length (rm_genkw_prefix_str "DESIGN:SCAL:WO")
   < String.length "DESIGN:SCAL:WO")%nat.
Proof.
  split; [reflexivity|].
  apply (rm_genkw_prefix_strips_one_level "DESIGN:SCAL:WO"). reflexivity.
Defined.

(** ** The name normaliser on dictionaries *)

Lemma find_app_last {A : Type} (p : A -> bool) (l : list A) (x : A) :
  find p (l ++ [x]) =
    match find p l with
    | Some y => Some y
    | None => if p x then Some x else None
    end.
Proof.
  induction l as [|a l IH]; simpl; [reflexivity|].
  destruct (p a); [reflexivity|exact IH].
Qed.

Lemma get_set (k k' : string) (v : pyval) (d : dict) :
  Dict.get k' (Dict.set k v d) =
    if String.eqb k k' then Some v else Dict.get k' d.
Proof.
  destruct (String.eqb_spec k k') as [->|Hne].
  - apply get_set_eq.
  - apply get_set_ne. exact Hne.
Qed.

Lemma get_fold_set (f : string -> string) (d acc : dict) (k : string) :
  Dict.get k
    (fold_left (fun a kv => Dict.set (f (fst kv)) (snd kv) a) d acc) =
    match last_value_under f k d with
    | Some v => Some v
    | None => Dict.get k acc
    end.
Proof.
  revert acc. induction d as [|[k0 v0] d IH]; intros acc; simpl.
  - reflexivity.
  - rewrite IH. unfold last_value_under. simpl rev.
    rewrite find_app_last.
    destruct (find _ (rev d)) as [[k1 v1]|]; simpl; [reflexivity|].
    rewrite get_set. destruct (String.eqb (f k0) k); reflexivity.
Qed.

(** Normalising the keys of a dictionary keeps, under each normalised name,
    the value of the last item of the input with that normalised name: when
    two keys differ in their prefix only, the later one wins and the earlier
    value is dropped without an error. *)
Theorem rm_genkw_prefix_dict_last_wins (d : dict) (k : string) :
  exists d',
    rm_genkw_prefix (Dct d) = inr (Dct d') /\
    Dict.get k d' = last_value_under rm_genkw_prefix_str k d.
Proof.
  exists (rm_genkw_prefix_dict d). split; [reflexivity|].
  unfold rm_genkw_prefix_dict, Dict.map_keys.
  rewrite get_fold_set. simpl.
  destruct (last_value_under rm_genkw_prefix_str k d); reflexivity.
Qed.

Lemma set_fresh (k : string) (v : pyval) (d : dict) :
  ~ In k (Dict.keys d) -> Dict.set k v d = d ++ [(k, v)].
Proof.
  induction d as [|[k0 v0] d IH]; simpl; intros Hk; [reflexivity|].
  destruct (String.eqb_spec k k0) as [->|Hne]; [tauto|].
  rewrite IH by tauto. reflexivity.
Qed.

Lemma fold_set_fresh (f : string -> string) (d acc : dict) :
  NoDup (Dict.keys acc ++ map f (Dict.keys d)) ->
  fold_left (fun a kv => Dict.set (f (fst kv)) (snd kv) a) d acc
    = acc ++ rename_keys f d.
Proof.
  revert acc. induction d as [|[k0 v0] d IH]; intros acc Hnd; simpl.
  - rewrite app_nil_r. reflexivity.
  - simpl in Hnd.
    assert (Hfresh : ~ In (f k0) (Dict.keys acc)).
    { apply NoDup_remove_2 in Hnd. intros Hin. apply Hnd.
      apply in_or_app. left. exact Hin. }
    rewrite set_fresh by exact Hfresh.
    rewrite IH.
    + rewrite <- app_assoc. reflexivity.
    + unfold Dict.keys in *. rewrite map_app. simpl.
      rewrite <- app_assoc. exact Hnd.
Qed.

(** When no two keys of the dictionary normalise to the same name, nothing
    is lost: the result holds the same values in the same order, each under
    its normalised key. *)
Theorem rm_genkw_prefix_dict_no_collision (d : dict) :
  NoDup (map rm_genkw_prefix_str (Dict.keys d)) ->
  rm_genkw_prefix (Dct d) = inr (Dct (rename_keys rm_genkw_prefix_str d)).
Proof.
  intros Hnd. simpl. unfold rm_genkw_prefix_dict, Dict.map_keys.
  rewrite fold_set_fresh by exact Hnd. reflexivity.
Qed.

Lemma rm_genkw_prefix_dict_no_collision_witness :
  NoDup (map rm_genkw_prefix_str (Dict.keys Fixture.params_parsed)) /\
  rm_genkw_prefix (Dct Fixture.params_parsed) =
    inr (Dct [ ("MYPARAM", VStr "0.5");
               ("__HIGH__", VStr "-0.25");
               ("FAR", VStr "5.0") ]).
Proof.
  assert (H : NoDup (map rm_genkw_prefix_str
                       (Dict.keys Fixture.params_parsed))).
  { vm_compute. repeat (constructor; [simpl; intuition discriminate|]).
    constructor. }
  split; [exact H|].
  exact (rm_genkw_prefix_dict_no_collision Fixture.params_parsed H).
Defined.

(** ** The parameter dictionary *)

Lemma get_magic_in (k : string) (v : pyval) :
  In (k, v) MAGIC_CASES -> Dict.get k MAGIC_CASES = Some v.
Proof.
  unfold MAGIC_CASES. simpl. intros H.
  repeat (destruct H as [H|H]; [injection H as <- <-; reflexivity|]).
  contradiction.
Qed.

Lemma get_magic_not_in (k : string) :
  ~ In k (Dict.keys MAGIC_CASES) -> Dict.get k MAGIC_CASES = None.
Proof.
  unfold MAGIC_CASES, Dict.keys. simpl. intros H.
  repeat match goal with
         | |- context [String.eqb k ?s] =>
             destruct (String.eqb_spec k s) as [->|_]; [exfalso; tauto|]
         end.
  reflexivity.
Qed.

(** Looking a name up in the dictionary [_get_interpolation_values] builds:
    a name of [MAGIC_CASES] gives its magic value, any other name gives what
    the file holds under that normalised name, if anything. *)
Theorem parameter_dict_lookup (parsed : dict) (k : string) :
  Dict.get k (parameter_dict_of parsed) =
    match Dict.get k MAGIC_CASES with
    | Some v => Some v
    | None => last_value_under rm_genkw_prefix_str k parsed
    end.
Proof.
  destruct (in_dec string_dec k (Dict.keys MAGIC_CASES)) as [Hin|Hout].
  - destruct (magic_key_value k Hin) as [z Hz].
    rewrite (get_magic_in _ _ Hz).
    apply get_update_magic. exact Hz.
  - rewrite (get_magic_not_in _ Hout).
    unfold parameter_dict_of. rewrite get_update_other by exact Hout.
    unfold rm_genkw_prefix_dict, Dict.map_keys. rewrite get_fold_set.
    destruct (last_value_under rm_genkw_prefix_str k parsed); reflexivity.
Qed.

(** ** The shape of a run *)

(** Walks through the branches of [_get_interpolation_values] in the order
    of the source and runs [fin] in each. *)
Ltac giv_branches w pf wo go fin :=
  py_unfold;
  destruct (fs w pf) as [?lines|]; simpl; [|fin];
  destruct (extract_key_value _) as [?ex|?parsed]; simpl; [fin|];
  destruct (Dict.mem wo _); simpl; [|fin];
  destruct (Dict.get wo _) as [?vw|]; simpl; [|fin];
  destruct (float _) as [?ex|?fw]; simpl; [fin|];
  destruct (Dict.mem go _); simpl; [|fin];
  destruct (Dict.get go _) as [?vg|]; simpl; [|fin];
  destruct (float _) as [?ex|?fg]; simpl; [fin|];
  destruct (String.eqb go wo); simpl; fin.

Section Shape.

Context {E : External}.

Lemma delegate_eq (w : world) (args : pyscal_args pyfloat) :
  delegate args w =
    (PyscalMain args :: value_error_log (pyscal_main w args),
     pyscal_main w args).
Proof.
  py_unfold. unfold value_error_log.
  destruct (pyscal_main w args) as [[code|[| msg | msg | key |]]|[]];
    reflexivity.
Qed.

Lemma opened_paths_app (t t' : list event) :
  opened_paths (t ++ t') = opened_paths t ++ opened_paths t'.
Proof.
  induction t as [|[p|p|lvl fmt args|args] t IH]; simpl; rewrite ?IH;
    reflexivity.
Qed.

Lemma pyscal_calls_app (t t' : list event) :
  pyscal_calls (t ++ t') = pyscal_calls t ++ pyscal_calls t'.
Proof.
  induction t as [|[p|p|lvl fmt args|args] t IH]; simpl; rewrite ?IH;
    reflexivity.
Qed.

Lemma value_error_log_quiet (r : abort + unit) :
  opened_paths (value_error_log r) = [] /\
  pyscal_calls (value_error_log r) = [] /\
  (forall e, In e (value_error_log r) -> exists msg, e = Log ERROR msg []).
Proof.
  destruct r as [[code|[| msg | msg | key |]]|[]]; simpl;
    repeat split; intros e He; simpl in He; try contradiction;
    destruct He as [<-|[]]; eauto.
Qed.

Variables (w : world) (pf : string).

Lemma giv_abort_is_raise (wo go : string) (t : list event) (a : abort) :
  _get_interpolation_values wo go pf w = (t, inl a) -> exists e, a = Raise e.
Proof.
  giv_branches w pf wo go
    ltac:(intros H; inversion H; subst; eauto).
Qed.

Lemma giv_opened_paths (wo go : string) :
  opened_paths (fst (_get_interpolation_values wo go pf w)) = [] \/
  opened_paths (fst (_get_interpolation_values wo go pf w)) = [pf].
Proof. giv_branches w pf wo go ltac:(auto). Qed.

Lemma giv_pyscal_calls (wo go : string) :
  pyscal_calls (fst (_get_interpolation_values wo go pf w)) = [].
Proof. giv_branches w pf wo go ltac:(reflexivity). Qed.

Lemma giv_no_pyscal (wo go : string) (args : pyscal_args pyfloat) :
  ~ In (PyscalMain args) (fst (_get_interpolation_values wo go pf w)).
Proof.
  intros H. destruct (giv_events w pf wo go _ H)
    as [H'|[H'|(? & ? & ? & H')]]; discriminate H'.
Qed.

Variables (rp out sheet wo go slgof : string) (family : Z).

(** [run] leaves in one of seven ways. *)
Lemma run_cases :
  let r := run rp out sheet wo go slgof family pf w in
  (fs w rp = None /\
   r = ([PathExists rp; Log ERROR "%s does not exist" [AStr rp]],
        inl (SysExit 1))) \/
  (fs w rp <> None /\ scenario_ok wo go = false /\
   r = ([PathExists rp;
         Log ERROR "WaterOil interpolation parameter missing" []],
        inl (SysExit 1))) \/
  (fs w rp <> None /\ scenario_ok wo go = true /\ slgof_ok slgof = false /\
   r = ([PathExists rp; Log ERROR "Only supports sgof or slgof" []],
        inl (SysExit 1))) \/
  (fs w rp <> None /\ scenario_ok wo go = true /\ slgof_ok slgof = true /\
   family_ok family = false /\
   r = ([PathExists rp; Log ERROR "Family must be either 1 or 2" []],
        inl (SysExit 1))) \/
  (fs w rp <> None /\ slgof_ok slgof = true /\ family_ok family = true /\
   rm_genkw_prefix_str wo = MAGIC_NONE /\
   rm_genkw_prefix_str go = MAGIC_NONE /\
   let args := pyscal_kwargs rp out sheet slgof family None None in
   r = (PathExists rp :: PyscalMain args
        :: value_error_log (pyscal_main w args),
        pyscal_main w args)) \/
  (fs w rp <> None /\ slgof_ok slgof = true /\ family_ok family = true /\
   rm_genkw_prefix_str wo <> MAGIC_NONE /\
   exists t a,
     _get_interpolation_values (rm_genkw_prefix_str wo)
       (gas_oil_lookup_name wo go) pf w = (t, inl a) /\
     r = (PathExists rp :: t, inl a)) \/
  (fs w rp <> None /\ slgof_ok slgof = true /\ family_ok family = true /\
   rm_genkw_prefix_str wo <> MAGIC_NONE /\
   exists t fa fb,
     _get_interpolation_values (rm_genkw_prefix_str wo)
       (gas_oil_lookup_name wo go) pf w = (t, inr (fa, fb)) /\
     let args :=
       pyscal_kwargs rp out sheet slgof family (Some fa) (Some fb) in
     r = (PathExists rp :: t ++ PyscalMain args
          :: value_error_log (pyscal_main w args),
          pyscal_main w args)).
Proof.
  intros r. subst r.
  destruct (fs w rp) as [l|] eqn:Hrp.
  2:{ left. split; [reflexivity|]. apply run_missing_relperm. exact Hrp. }
  assert (Hsome : Some l <> None) by discriminate.
  right.
  destruct (scenario_ok wo go) eqn:Hsc.
  2:{ left. repeat split; auto. apply (run_bad_scenario _ _ _ _ _ _ _ _ _ l);
        assumption. }
  right.
  destruct (slgof_ok slgof) eqn:Hv.
  2:{ left. repeat split; auto. apply (run_bad_variant _ _ _ _ _ _ _ _ _ l);
        assumption. }
  right.
  destruct (family_ok family) eqn:Hfam.
  2:{ left. repeat split; auto. apply (run_bad_family _ _ _ _ _ _ _ _ _ l);
        assumption. }
  right.
  destruct (String.eqb_spec (rm_genkw_prefix_str wo) MAGIC_NONE) as [Hwo|Hwo].
  - left.
    assert (Hgo : rm_genkw_prefix_str go = MAGIC_NONE).
    { unfold scenario_ok in Hsc. rewrite Hwo in Hsc. simpl in Hsc.
      apply String.eqb_eq. exact Hsc. }
    repeat split; auto. cbv zeta.
    rewrite (run_no_interpolation w rp out sheet wo go slgof family pf l)
      by assumption.
    rewrite delegate_eq. reflexivity.
  - right.
    rewrite (run_interpolation w rp out sheet wo go slgof family pf l)
      by assumption.
    cbv zeta. fold (gas_oil_lookup_name wo go).
    destruct (_get_interpolation_values (rm_genkw_prefix_str wo)
                (gas_oil_lookup_name wo go) pf w) as [t [a|[fa fb]]] eqn:Hgiv.
    + left. repeat split; auto. exists t, a. split; reflexivity.
    + right. repeat split; auto. exists t, fa, fb. split; [reflexivity|].
      rewrite delegate_eq. reflexivity.
Qed.

(** A call of pyscal in the trace of [run] tells how [run] got there. *)
Lemma run_pyscal_inv (args : pyscal_args pyfloat) :
  In (PyscalMain args) (fst (run rp out sheet wo go slgof family pf w)) ->
  slgof_ok slgof = true /\ family_ok family = true /\
  exists pre iw ig,
    args = pyscal_kwargs rp out sheet slgof family iw ig /\
    run rp out sheet wo go slgof family pf w =
      (PathExists rp :: pre ++ PyscalMain args
       :: value_error_log (pyscal_main w args),
       pyscal_main w args) /\
    ((rm_genkw_prefix_str wo = MAGIC_NONE /\
      rm_genkw_prefix_str go = MAGIC_NONE /\
      pre = [] /\ iw = None /\ ig = None) \/
     (rm_genkw_prefix_str wo <> MAGIC_NONE /\
      exists fa fb,
        _get_interpolation_values (rm_genkw_prefix_str wo)
          (gas_oil_lookup_name wo go) pf w = (pre, inr (fa, fb)) /\
        iw = Some fa /\ ig = Some fb)).
Proof.
  intros Hin.
  destruct run_cases
    as [(_ & Hr)|[(_ & _ & Hr)|[(_ & _ & _ & Hr)|[(_ & _ & _ & _ & Hr)|
        [(_ & Hv & Hfam & Hwo & Hgo & Hr)|
         [(_ & Hv & Hfam & Hwo & t & a & Hgiv & Hr)|
          (_ & Hv & Hfam & Hwo & t & fa & fb & Hgiv & Hr)]]]]]];
    cbv zeta in Hr; rewrite Hr in Hin; simpl in Hin.
  1-4: destruct Hin as [H|[H|[]]]; discriminate H.
  - destruct Hin as [H|[H|H]]; [discriminate H| |].
    + injection H as <-. repeat split; auto.
      exists [], None, None. split; [reflexivity|]. split; [exact Hr|].
      left. auto.
    + destruct (value_error_log_quiet (pyscal_main w
                  (pyscal_kwargs rp out sheet slgof family None None)))
        as (_ & _ & Hq).
      destruct (Hq _ H) as [msg H']. discriminate H'.
  - destruct Hin as [H|H]; [discriminate H|].
    exfalso. apply (giv_no_pyscal (rm_genkw_prefix_str wo)
                      (gas_oil_lookup_name wo go) args).
    rewrite Hgiv. exact H.
  - destruct Hin as [H|H]; [discriminate H|].
    apply in_app_or in H. destruct H as [H|[H|H]].
    + exfalso. apply (giv_no_pyscal (rm_genkw_prefix_str wo)
                        (gas_oil_lookup_name wo go) args).
      rewrite Hgiv. exact H.
    + injection H as <-. repeat split; auto.
      exists t, (Some fa), (Some fb). split; [reflexivity|].
      split; [exact Hr|]. right. split; [exact Hwo|]. eauto.
    + destruct (value_error_log_quiet (pyscal_main w
                  (pyscal_kwargs rp out sheet slgof family
                     (Some fa) (Some fb)))) as (_ & _ & Hq).
      destruct (Hq _ H) as [msg H']. discriminate H'.
Qed.

End Shape.

Lemma lower_ascii_idempotent (a : ascii) :
  PyStr.lower_ascii (PyStr.lower_ascii a) = PyStr.lower_ascii a.
Proof. destruct a as [[] [] [] [] [] [] [] []]; reflexivity. Qed.

Lemma lower_idempotent (s : string) :
  PyStr.lower (PyStr.lower s) = PyStr.lower s.
Proof.
  induction s as [|a s IH]; simpl; [reflexivity|].
  rewrite lower_ascii_idempotent, IH. reflexivity.
Qed.

Lemma in_list_two (s a b : string) :
  PyStr.in_list s [a; b] = true -> s = a \/ s = b.
Proof.
  simpl. destruct (String.eqb_spec s a); [auto|].
  destruct (String.eqb_spec s b); [auto|discriminate].
Qed.

Section RunLaws.

Context {E : External}.

Variables (w : world).
Variables (rp out sheet wo go slgof : string) (family : Z) (pf : string).

Lemma run_names_ext (wo' go' : string) :
  rm_genkw_prefix_str wo = rm_genkw_prefix_str wo' ->
  rm_genkw_prefix_str go = rm_genkw_prefix_str go' ->
  run rp out sheet wo go slgof family pf w =
  run rp out sheet wo' go' slgof family pf w.
Proof. intros Hwo Hgo. unfold run. rewrite Hwo, Hgo. reflexivity. Qed.

Lemma giv_float_failure (n m : string) (lines : list string) (parsed : dict)
    (v : pyval) (e : exn) :
  fs w pf = Some lines ->
  extract_key_value lines = inr parsed ->
  Dict.get n (parameter_dict_of parsed) = Some v ->
  float v = inl e ->
  _get_interpolation_values n m pf w =
    ([PathExists pf; OpenRead pf], inl (Raise e)).
Proof.
  intros Hfs Hparse Hget Hf. py_unfold. rewrite Hfs. simpl.
  rewrite Hparse. simpl. rewrite (mem_get _ _ _ Hget), Hget. simpl.
  rewrite Hf. reflexivity.
Qed.

Lemma giv_parse_failure (n m : string) (lines : list string) (e : exn) :
  fs w pf = Some lines ->
  extract_key_value lines = inl e ->
  _get_interpolation_values n m pf w =
    ([PathExists pf; OpenRead pf], inl (Raise e)).
Proof.
  intros Hfs Hparse. py_unfold. rewrite Hfs. simpl.
  rewrite Hparse. reflexivity.
Qed.

(** The GEN_KW namespace in front of a requested name is optional: a run
    with the names written with a prefix does exactly what the run with the
    bare names does. *)
Theorem namespace_is_optional (ns1 ns2 : string) :
  PyStr.contains ":" ns1 = false ->
  PyStr.contains ":" ns2 = false ->
  PyStr.contains ":" wo = false ->
  PyStr.contains ":" go = false ->
  run rp out sheet (ns1 ++ ":" ++ wo)%string (ns2 ++ ":" ++ go)%string
      slgof family pf w =
  run rp out sheet wo go slgof family pf w.
Proof.
  intros H1 H2 Hwo Hgo. symmetry. apply run_names_ext.
  - rewrite rm_genkw_prefix_str_first_colon by exact H1.
    rewrite rm_genkw_prefix_str_no_colon by exact Hwo. reflexivity.
  - rewrite rm_genkw_prefix_str_first_colon by exact H2.
    rewrite rm_genkw_prefix_str_no_colon by exact Hgo. reflexivity.
Qed.

(** With both names at the sentinel and the validations passed, [run] calls
    pyscal right after the relperm check with both interpolation values
    absent, never looks at the parameters file, and ends as pyscal ends. *)
Theorem no_names_no_interpolation (l : list string) :
  rm_genkw_prefix_str wo = MAGIC_NONE ->
  rm_genkw_prefix_str go = MAGIC_NONE ->
  fs w rp = Some l ->
  slgof_ok slgof = true ->
  family_ok family = true ->
  let args := pyscal_kwargs rp out sheet slgof family None None in
  run rp out sheet wo go slgof family pf w =
    (PathExists rp :: PyscalMain args
     :: value_error_log (pyscal_main w args),
     pyscal_main w args).
Proof.
  intros Hwo Hgo Hrp Hv Hfam args.
  rewrite (run_no_interpolation w rp out sheet wo go slgof family pf l)
    by assumption.
  rewrite delegate_eq. reflexivity.
Qed.

(** With both names given, each is looked up on its own: pyscal receives the
    float of the water-oil entry and the float of the gas-oil entry, and the
    second value is logged only when the two names differ. *)
Theorem two_names_resolve_independently
    (l lines : list string) (parsed : dict) (vw vg : pyval)
    (fw fg : pyfloat) :
  rm_genkw_prefix_str wo <> MAGIC_NONE ->
  rm_genkw_prefix_str go <> MAGIC_NONE ->
  fs w rp = Some l ->
  slgof_ok slgof = true ->
  family_ok family = true ->
  fs w pf = Some lines ->
  extract_key_value lines = inr parsed ->
  Dict.get (rm_genkw_prefix_str wo) (parameter_dict_of parsed) = Some vw ->
  float vw = inr fw ->
  Dict.get (rm_genkw_prefix_str go) (parameter_dict_of parsed) = Some vg ->
  float vg = inr fg ->
  let args :=
    pyscal_kwargs rp out sheet slgof family (Some fw) (Some fg) in
  run rp out sheet wo go slgof family pf w =
    ([PathExists rp; PathExists pf; OpenRead pf;
      Log INFO "Collected %s from parameter.txt with value %f"
        [AStr (rm_genkw_prefix_str wo); AFloat fw]]
     ++ (if String.eqb (rm_genkw_prefix_str go) (rm_genkw_prefix_str wo)
         then []
         else [Log INFO "Collected %s from parameter.txt with value %f"
                 [AStr (rm_genkw_prefix_str go); AFloat fg]])
     ++ PyscalMain args :: value_error_log (pyscal_main w args),
     pyscal_main w args).
Proof.
  intros Hwo Hgo Hrp Hv Hfam Hpf Hparse Hgw Hfw Hgg Hfg args.
  rewrite (run_interpolation w rp out sheet wo go slgof family pf l)
    by assumption.
  apply String.eqb_neq in Hgo. rewrite Hgo. cbv zeta.
  rewrite (giv_found w pf _ _ lines parsed vw vg fw fg) by assumption.
  rewrite delegate_eq. fold args.
  destruct (String.eqb (rm_genkw_prefix_str go) (rm_genkw_prefix_str wo));
    reflexivity.
Qed.

(** Whenever [run] calls pyscal, it passes the relperm path and the output
    path as given, asks for verbose output, and passes the sheet name as
    given unless it is ["0"] or the sentinel, which both mean no sheet. *)
Theorem pyscal_call_arguments (args : pyscal_args pyfloat) :
  In (PyscalMain args) (fst (run rp out sheet wo go slgof family pf w)) ->
  parametertable args = rp /\
  output args = out /\
  verbose args = true /\
  (sheet = "0" \/ sheet = MAGIC_NONE -> sheet_name_arg args = None) /\
  (sheet <> "0" -> sheet <> MAGIC_NONE ->
   sheet_name_arg args = Some sheet).
Proof.
  intros Hin.
  destruct (run_pyscal_inv w pf rp out sheet wo go slgof family args Hin)
    as (_ & _ & pre & iw & ig & -> & _).
  simpl. repeat split.
  - intros [->| ->]; reflexivity.
  - intros H0 Hnone.
    apply String.eqb_neq in H0. apply String.eqb_neq in Hnone.
    rewrite H0, Hnone. reflexivity.
Qed.

(** Whenever [run] calls pyscal, the two flags say what was asked for: the
    SLGOF flag is set exactly for a variant spelled slgof in any letter
    case and cleared for sgof, and the family flag is set exactly for
    family 2 and cleared for family 1; no other variant or family gets
    that far. *)
Theorem pyscal_call_flags (args : pyscal_args pyfloat) :
  In (PyscalMain args) (fst (run rp out sheet wo go slgof family pf w)) ->
  ((slgof_arg args = true /\ PyStr.lower slgof = "slgof") \/
   (slgof_arg args = false /\ PyStr.lower slgof = "sgof")) /\
  ((family2 args = true /\ family = 2%Z) \/
   (family2 args = false /\ family = 1%Z)).
Proof.
  intros Hin.
  destruct (run_pyscal_inv w pf rp out sheet wo go slgof family args Hin)
    as (Hv & Hfam & pre & iw & ig & -> & _).
  simpl. split.
  - unfold slgof_ok in Hv. apply in_list_two in Hv.
    destruct Hv as [-> | ->]; [right|left]; split; reflexivity.
  - unfold family_ok in Hfam. simpl in Hfam.
    destruct (Z.eqb_spec family 1) as [->|H1]; [right; split; reflexivity|].
    destruct (Z.eqb_spec family 2) as [->|H2]; [left; split; reflexivity|].
    discriminate Hfam.
Qed.

(** Whenever [run] calls pyscal, the two interpolation values are both
    absent (no water-oil name was given) or both present (one was): pyscal
    never gets one without the other. *)
Theorem interpolation_values_come_in_pairs (args : pyscal_args pyfloat) :
  In (PyscalMain args) (fst (run rp out sheet wo go slgof family pf w)) ->
  (rm_genkw_prefix_str wo = MAGIC_NONE /\
   int_param_wo args = None /\ int_param_go args = None) \/
  (rm_genkw_prefix_str wo <> MAGIC_NONE /\
   exists fw fg,
     int_param_wo args = Some fw /\ int_param_go args = Some fg).
Proof.
  intros Hin.
  destruct (run_pyscal_inv w pf rp out sheet wo go slgof family args Hin)
    as (_ & _ & pre & iw & ig & -> & _ &
        [(Hwo & _ & _ & -> & ->)|(Hwo & fa & fb & _ & -> & ->)]).
  - left. auto.
  - right. split; [exact Hwo|]. exists fa, fb. auto.
Qed.

(** [run] calls pyscal at most once, as its last step: the result of [run]
    is then the result of that call, and the only thing [run] does
    afterwards is log the message of a [ValueError] before passing the
    exception on unchanged. *)
Theorem pyscal_call_decides (args : pyscal_args pyfloat) :
  In (PyscalMain args) (fst (run rp out sheet wo go slgof family pf w)) ->
  pyscal_calls (fst (run rp out sheet wo go slgof family pf w)) = [args] /\
  snd (run rp out sheet wo go slgof family pf w) = pyscal_main w args /\
  exists pre,
    fst (run rp out sheet wo go slgof family pf w) =
      pre ++ PyscalMain args :: value_error_log (pyscal_main w args).
Proof.
  intros Hin.
  destruct (run_pyscal_inv w pf rp out sheet wo go slgof family args Hin)
    as (_ & _ & pre & iw & ig & Hargs & Hr & Hpre).
  rewrite Hr. simpl.
  destruct (value_error_log_quiet (pyscal_main w args)) as (_ & Hq & _).
  split; [|split; [reflexivity|]].
  - rewrite pyscal_calls_app. simpl. rewrite Hq.
    destruct Hpre as [(_ & _ & -> & _)|(_ & fa & fb & Hgiv & _)].
    + reflexivity.
    + pose proof (giv_pyscal_calls w pf (rm_genkw_prefix_str wo)
                    (gas_oil_lookup_name wo go)) as Hc.
      rewrite Hgiv in Hc. simpl in Hc. rewrite Hc. reflexivity.
  - exists (PathExists rp :: pre). reflexivity.
Qed.

(** A run that does not get to call pyscal fails: it exits with status 1
    or ends in an exception; it never returns normally and never exits with
    another status. *)
Theorem run_fails_without_pyscal :
  pyscal_calls (fst (run rp out sheet wo go slgof family pf w)) = [] ->
  snd (run rp out sheet wo go slgof family pf w) = inl (SysExit 1) \/
  exists e, snd (run rp out sheet wo go slgof family pf w) = inl (Raise e).
Proof.
  intros Hnone.
  destruct (run_cases w pf rp out sheet wo go slgof family)
    as [(_ & Hr)|[(_ & _ & Hr)|[(_ & _ & _ & Hr)|[(_ & _ & _ & _ & Hr)|
        [(_ & _ & _ & _ & _ & Hr)|
         [(_ & _ & _ & _ & t & a & Hgiv & Hr)|
          (_ & _ & _ & _ & t & fa & fb & _ & Hr)]]]]]];
    cbv zeta in Hr; rewrite Hr in *; simpl in *; auto.
  - discriminate Hnone.
  - right. destruct (giv_abort_is_raise w pf _ _ _ _ Hgiv) as [e ->]. eauto.
  - rewrite pyscal_calls_app in Hnone. simpl in Hnone.
    destruct (pyscal_calls t); discriminate Hnone.
Qed.

(** The files [run] touches: it first checks that the relperm file exists,
    checks no other path than that one and the parameters file, and opens
    nothing but the parameters file, at most once; the relperm file itself
    is left to pyscal. *)
Theorem run_file_access :
  (exists t,
     fst (run rp out sheet wo go slgof family pf w) = PathExists rp :: t) /\
  (forall p,
     In (PathExists p) (fst (run rp out sheet wo go slgof family pf w)) ->
     p = rp \/ p = pf) /\
  (opened_paths (fst (run rp out sheet wo go slgof family pf w)) = [] \/
   opened_paths (fst (run rp out sheet wo go slgof family pf w)) = [pf]).
Proof.
  pose proof (giv_opened_paths w pf (rm_genkw_prefix_str wo)
                (gas_oil_lookup_name wo go)) as Hopen.
  pose proof (giv_events w pf (rm_genkw_prefix_str wo)
                (gas_oil_lookup_name wo go)) as Hev.
  assert (Hquiet := fun r => value_error_log_quiet r).
  destruct (run_cases w pf rp out sheet wo go slgof family)
    as [(_ & Hr)|[(_ & _ & Hr)|[(_ & _ & _ & Hr)|[(_ & _ & _ & _ & Hr)|
        [(_ & _ & _ & _ & _ & Hr)|
         [(_ & _ & _ & _ & t & a & Hgiv & Hr)|
          (_ & _ & _ & _ & t & fa & fb & Hgiv & Hr)]]]]]];
    cbv zeta in Hr; rewrite Hr; simpl.
  1-4: split; [eauto|]; split; [|auto];
       intros p [H|[H|[]]]; [injection H; auto|discriminate H].
  - split; [eauto|].
    destruct (Hquiet (pyscal_main w
                (pyscal_kwargs rp out sheet slgof family None None)))
      as (Ho & _ & Hl).
    split; [|rewrite Ho; auto].
    intros p [H|[H|H]]; [injection H; auto|discriminate H|].
    destruct (Hl _ H) as [msg H']. discriminate H'.
  - rewrite Hgiv in Hopen, Hev. simpl in Hopen, Hev.
    split; [eauto|]. split; [|exact Hopen].
    intros p [H|H]; [injection H; auto|].
    destruct (Hev _ H) as [H'|[H'|(? & ? & ? & H')]];
      [injection H'; auto|discriminate H'|discriminate H'].
  - rewrite Hgiv in Hopen, Hev. simpl in Hopen, Hev.
    destruct (Hquiet (pyscal_main w
                (pyscal_kwargs rp out sheet slgof family
                   (Some fa) (Some fb)))) as (Ho & _ & Hl).
    split; [eauto|]. split.
    + intros p [H|H]; [injection H; auto|].
      apply in_app_or in H. destruct H as [H|[H|H]].
      * destruct (Hev _ H) as [H'|[H'|(? & ? & ? & H')]];
          [injection H'; auto|discriminate H'|discriminate H'].
      * discriminate H.
      * destruct (Hl _ H) as [msg H']. discriminate H'.
    + rewrite opened_paths_app. simpl. rewrite Ho, app_nil_r. exact Hopen.
Qed.

(** A value of the water-oil entry that [float] refuses ends the run in the
    exception [float] raised, with nothing logged and pyscal not called; the
    gas-oil name is not even looked up, so this wins over a gas-oil name
    that is missing from the file. *)
Theorem float_failure_propagates
    (l lines : list string) (parsed : dict) (v : pyval) (e : exn) :
  fs w rp = Some l ->
  rm_genkw_prefix_str wo <> MAGIC_NONE ->
  slgof_ok slgof = true ->
  family_ok family = true ->
  fs w pf = Some lines ->
  extract_key_value lines = inr parsed ->
  Dict.get (rm_genkw_prefix_str wo) (parameter_dict_of parsed) = Some v ->
  float v = inl e ->
  run rp out sheet wo go slgof family pf w =
    ([PathExists rp; PathExists pf; OpenRead pf], inl (Raise e)).
Proof.
  intros Hrp Hwo Hv Hfam Hpf Hparse Hget Hf.
  rewrite (run_interpolation w rp out sheet wo go slgof family pf l)
    by assumption.
  cbv zeta.
  rewrite (giv_float_failure _ _ lines parsed v e) by assumption.
  reflexivity.
Qed.

(** An exception of [extract_key_value] on the lines of the parameters file
    ends the run in that exception, with nothing logged and pyscal not
    called. *)
Theorem parse_failure_propagates (l lines : list string) (e : exn) :
  fs w rp = Some l ->
  rm_genkw_prefix_str wo <> MAGIC_NONE ->
  slgof_ok slgof = true ->
  family_ok family = true ->
  fs w pf = Some lines ->
  extract_key_value lines = inl e ->
  run rp out sheet wo go slgof family pf w =
    ([PathExists rp; PathExists pf; OpenRead pf], inl (Raise e)).
Proof.
  intros Hrp Hwo Hv Hfam Hpf Hparse.
  rewrite (run_interpolation w rp out sheet wo go slgof family pf l)
    by assumption.
  cbv zeta.
  rewrite (giv_parse_failure _ _ lines e) by assumption.
  reflexivity.
Qed.

(** The keyword variant is read without regard to letter case: a run with
    the variant as given does exactly what the run with the lower-cased
    variant does. *)
Theorem slgof_case_insensitive :
  run rp out sheet wo go slgof family pf w =
  run rp out sheet wo go (PyStr.lower slgof) family pf w.
Proof. unfold run. rewrite lower_idempotent. reflexivity. Qed.


End RunLaws.

(** ** The further properties on concrete run directories *)

(** Two keys with the same name behind different prefixes: the later value
    is kept, at the place of the earlier one. *)
Lemma rm_genkw_prefix_dict_collision_example :
  rm_genkw_prefix (Dct Fixture.colliding_parsed) =
    inr (Dct [("X", VStr "5.0"); ("Y", VStr "1.0")]) /\
  last_value_under rm_genkw_prefix_str "X" Fixture.colliding_parsed
    = Some (VStr "5.0").
Proof. split; reflexivity. Qed.

Lemma namespace_is_optional_witness :
  PyStr.contains ":" "SCAL" = false /\
  PyStr.contains ":" "DESIGN" = false /\
  PyStr.contains ":" "MYPARAM" = false /\
  PyStr.contains ":" "FAR" = false /\
  run (E := Fixture.ext) "relperm.csv" "out.inc" "__NONE__"
      "SCAL:MYPARAM" "DESIGN:FAR" "sgof" 1 "parameters.txt"
      Fixture.w_params =
  run (E := Fixture.ext) "relperm.csv" "out.inc" "__NONE__"
      "MYPARAM" "FAR" "sgof" 1 "parameters.txt" Fixture.w_params.
Proof.
  repeat (split; [reflexivity|]).
  exact (namespace_is_optional (E := Fixture.ext) Fixture.w_params
           "relperm.csv" "out.inc" "__NONE__" "MYPARAM" "FAR" "sgof" 1
           "parameters.txt" "SCAL" "DESIGN"
           eq_refl eq_refl eq_refl eq_refl).
Defined.

Lemma no_names_no_interpolation_witness :
  rm_genkw_prefix_str "__NONE__" = MAGIC_NONE /\
  fs Fixture.w_no_params "relperm.csv" = Some Fixture.relperm_lines /\
  slgof_ok "sgof" = true /\
  family_ok 1 = true /\
  run (E := Fixture.ext) "relperm.csv" "out.inc" "Sheet1"
      "__NONE__" "__NONE__" "sgof" 1 "parameters.txt"
      Fixture.w_no_params =
    ([PathExists "relperm.csv";
      PyscalMain
        (pyscal_kwargs "relperm.csv" "out.inc" "Sheet1" "sgof" 1
           None None)],
     inr tt).
Proof.
  repeat (split; [reflexivity|]).
  exact (no_names_no_interpolation (E := Fixture.ext) Fixture.w_no_params
           "relperm.csv" "out.inc" "Sheet1" "__NONE__" "__NONE__" "sgof" 1
           "parameters.txt" Fixture.relperm_lines
           eq_refl eq_refl eq_refl eq_refl eq_refl).
Defined.

Lemma two_names_resolve_independently_witness :
  rm_genkw_prefix_str "SCAL:MYPARAM" <> MAGIC_NONE /\
  rm_genkw_prefix_str "__LOW__" <> MAGIC_NONE /\
  run (E := Fixture.ext) "relperm.csv" "out.inc" "__NONE__"
      "SCAL:MYPARAM" "__LOW__" "slgof" 2 "parameters.txt"
      Fixture.w_params =
    ([PathExists "relperm.csv"; PathExists "parameters.txt";
      OpenRead "parameters.txt";
      Log INFO "Collected %s from parameter.txt with value %f"
        [AStr "MYPARAM"; AFloat (E := Fixture.ext) (1 # 2)];
      Log INFO "Collected %s from parameter.txt with value %f"
        [AStr "__LOW__"; AFloat (E := Fixture.ext) (-1 # 1)];
      PyscalMain
        (pyscal_kwargs (E := Fixture.ext) "relperm.csv" "out.inc"
           "__NONE__" "slgof" 2 (Some (1 # 2)) (Some (-1 # 1)))],
     inr tt).
Proof.
  assert (H1 : rm_genkw_prefix_str "SCAL:MYPARAM" <> MAGIC_NONE)
    by (intros H; vm_compute in H; discriminate H).
  assert (H2 : rm_genkw_prefix_str "__LOW__" <> MAGIC_NONE)
    by (intros H; vm_compute in H; discriminate H).
  split; [exact H1|]. split; [exact H2|].
  exact (two_names_resolve_independently (E := Fixture.ext)
           Fixture.w_params "relperm.csv" "out.inc" "__NONE__"
           "SCAL:MYPARAM" "__LOW__" "slgof" 2 "parameters.txt"
           Fixture.relperm_lines Fixture.params_lines Fixture.params_parsed
           (VStr "0.5") (VInt (-1)) (1 # 2) (-1 # 1)
           H1 H2 eq_refl eq_refl eq_refl eq_refl eq_refl eq_refl eq_refl
           eq_refl eq_refl).
Defined.

Lemma fixture_call_in_trace :
  In (PyscalMain
        (pyscal_kwargs (E := Fixture.ext) "relperm.csv" "out.inc" "0"
           "SlGoF" 2 (Some (1 # 2)) (Some (1 # 2))))
     (fst (run (E := Fixture.ext) "relperm.csv" "out.inc" "0"
             "MYPARAM" "__NONE__" "SlGoF" 2 "parameters.txt"
             Fixture.w_params)).
Proof. vm_compute. auto 10. Qed.

Lemma pyscal_call_arguments_witness :
  In (PyscalMain
        (pyscal_kwargs (E := Fixture.ext) "relperm.csv" "out.inc" "0"
           "SlGoF" 2 (Some (1 # 2)) (Some (1 # 2))))
     (fst (run (E := Fixture.ext) "relperm.csv" "out.inc" "0"
             "MYPARAM" "__NONE__" "SlGoF" 2 "parameters.txt"
             Fixture.w_params)) /\
  sheet_name_arg
    (pyscal_kwargs (E := Fixture.ext) "relperm.csv" "out.inc" "0"
       "SlGoF" 2 (Some (1 # 2)) (Some (1 # 2))) = None.
Proof.
  split; [exact fixture_call_in_trace|].
  destruct (pyscal_call_arguments (E := Fixture.ext) Fixture.w_params
              "relperm.csv" "out.inc" "0" "MYPARAM" "__NONE__" "SlGoF" 2
              "parameters.txt" _ fixture_call_in_trace)
    as (_ & _ & _ & Hnone & _).
  apply Hnone. left. reflexivity.
Defined.

Lemma pyscal_call_flags_witness :
  In (PyscalMain
        (pyscal_kwargs (E := Fixture.ext) "relperm.csv" "out.inc" "0"
           "SlGoF" 2 (Some (1 # 2)) (Some (1 # 2))))
     (fst (run (E := Fixture.ext) "relperm.csv" "out.inc" "0"
             "MYPARAM" "__NONE__" "SlGoF" 2 "parameters.txt"
             Fixture.w_params)) /\
  ((slgof_arg
      (pyscal_kwargs (E := Fixture.ext) "relperm.csv" "out.inc" "0"
         "SlGoF" 2 (Some (1 # 2)) (Some (1 # 2))) = true /\
    PyStr.lower "SlGoF" = "slgof") \/
   (slgof_arg
      (pyscal_kwargs (E := Fixture.ext) "relperm.csv" "out.inc" "0"
         "SlGoF" 2 (Some (1 # 2)) (Some (1 # 2))) = false /\
    PyStr.lower "SlGoF" = "sgof")).
Proof.
  split; [exact fixture_call_in_trace|].
  exact (proj1 (pyscal_call_flags (E := Fixture.ext) Fixture.w_params
                  "relperm.csv" "out.inc" "0" "MYPARAM" "__NONE__" "SlGoF"
                  2 "parameters.txt" _ fixture_call_in_trace)).
Defined.

Lemma interpolation_values_come_in_pairs_witness :
  In (PyscalMain
        (pyscal_kwargs (E := Fixture.ext) "relperm.csv" "out.inc" "0"
           "SlGoF" 2 (Some (1 # 2)) (Some (1 # 2))))
     (fst (run (E := Fixture.ext) "relperm.csv" "out.inc" "0"
             "MYPARAM" "__NONE__" "SlGoF" 2 "parameters.txt"
             Fixture.w_params)) /\
  ((rm_genkw_prefix_str "MYPARAM" = MAGIC_NONE /\
    int_param_wo
      (pyscal_kwargs (E := Fixture.ext) "relperm.csv" "out.inc" "0"
         "SlGoF" 2 (Some (1 # 2)) (Some (1 # 2))) = None /\
    int_param_go
      (pyscal_kwargs (E := Fixture.ext) "relperm.csv" "out.inc" "0"
         "SlGoF" 2 (Some (1 # 2)) (Some (1 # 2))) = None) \/
   (rm_genkw_prefix_str "MYPARAM" <> MAGIC_NONE /\
    exists fw fg,
      int_param_wo
        (pyscal_kwargs (E := Fixture.ext) "relperm.csv" "out.inc" "0"
           "SlGoF" 2 (Some (1 # 2)) (Some (1 # 2))) = Some fw /\
      int_param_go
        (pyscal_kwargs (E := Fixture.ext) "relperm.csv" "out.inc" "0"
           "SlGoF" 2 (Some (1 # 2)) (Some (1 # 2))) = Some fg)).
Proof.
  split; [exact fixture_call_in_trace|].
  exact (interpolation_values_come_in_pairs (E := Fixture.ext)
           Fixture.w_params "relperm.csv" "out.inc" "0" "MYPARAM" "__NONE__"
           "SlGoF" 2 "parameters.txt" _ fixture_call_in_trace).
Defined.

Lemma strict_call_in_trace :
  In (PyscalMain
        (pyscal_kwargs (E := Fixture.ext_strict) "relperm.csv" "out.inc"
           "__NONE__" "sgof" 1 (Some (5 # 1)) (Some (5 # 1))))
     (fst (run (E := Fixture.ext_strict) "relperm.csv" "out.inc" "__NONE__"
             "FAR" "__NONE__" "sgof" 1 "parameters.txt" Fixture.w_params)).
Proof. vm_compute. auto 10. Qed.

(** pyscal refuses the value 5.0 with a [ValueError]: [run] logs the message
    and ends in the same exception. *)
Lemma pyscal_call_decides_witness :
  In (PyscalMain
        (pyscal_kwargs (E := Fixture.ext_strict) "relperm.csv" "out.inc"
           "__NONE__" "sgof" 1 (Some (5 # 1)) (Some (5 # 1))))
     (fst (run (E := Fixture.ext_strict) "relperm.csv" "out.inc" "__NONE__"
             "FAR" "__NONE__" "sgof" 1 "parameters.txt"
             Fixture.w_params)) /\
  snd (run (E := Fixture.ext_strict) "relperm.csv" "out.inc" "__NONE__"
         "FAR" "__NONE__" "sgof" 1 "parameters.txt" Fixture.w_params) =
    inl (Raise (ValueError "Interpolation parameter out of range")) /\
  exists pre,
    fst (run (E := Fixture.ext_strict) "relperm.csv" "out.inc" "__NONE__"
           "FAR" "__NONE__" "sgof" 1 "parameters.txt" Fixture.w_params) =
      pre ++
      [PyscalMain
         (pyscal_kwargs (E := Fixture.ext_strict) "relperm.csv" "out.inc"
            "__NONE__" "sgof" 1 (Some (5 # 1)) (Some (5 # 1)));
       Log ERROR "Interpolation parameter out of range" []].
Proof.
  split; [exact strict_call_in_trace|].
  destruct (pyscal_call_decides (E := Fixture.ext_strict) Fixture.w_params
              "relperm.csv" "out.inc" "__NONE__" "FAR" "__NONE__" "sgof" 1
              "parameters.txt" _ strict_call_in_trace)
    as (_ & Hres & Hpre).
  split; [exact Hres|exact Hpre].
Defined.

Lemma run_fails_without_pyscal_witness :
  pyscal_calls
    (fst (run (E := Fixture.ext) "relperm.csv" "out.inc" "__NONE__"
            "MYPARAM" "__NONE__" "sgof" 3 "parameters.txt"
            Fixture.w_params)) = [] /\
  (snd (run (E := Fixture.ext) "relperm.csv" "out.inc" "__NONE__"
          "MYPARAM" "__NONE__" "sgof" 3 "parameters.txt"
          Fixture.w_params) = inl (SysExit 1) \/
   exists e,
     snd (run (E := Fixture.ext) "relperm.csv" "out.inc" "__NONE__"
            "MYPARAM" "__NONE__" "sgof" 3 "parameters.txt"
            Fixture.w_params) = inl (Raise e)).
Proof.
  split; [reflexivity|].
  exact (run_fails_without_pyscal (E := Fixture.ext) Fixture.w_params
           "relperm.csv" "out.inc" "__NONE__" "MYPARAM" "__NONE__" "sgof" 3
           "parameters.txt" eq_refl).
Defined.

Lemma float_failure_propagates_witness :
  rm_genkw_prefix_str "MYPARAM" <> MAGIC_NONE /\
  Dict.get "MYPARAM" (parameter_dict_of [("MYPARAM", VStr "high")])
    = Some (VStr "high") /\
  float (E := Fixture.ext) (VStr "high")
    = inl (ValueError "could not convert string to float: 'high'") /\
  Dict.mem "ABSENT" (parameter_dict_of [("MYPARAM", VStr "high")]) = false /\
  run (E := Fixture.ext) "relperm.csv" "out.inc" "__NONE__"
      "MYPARAM" "ABSENT" "sgof" 1 "parameters.txt" Fixture.w_bad_value =
    ([PathExists "relperm.csv"; PathExists "parameters.txt";
      OpenRead "parameters.txt"],
     inl (Raise (ValueError "could not convert string to float: 'high'"))).
Proof.
  assert (H1 : rm_genkw_prefix_str "MYPARAM" <> MAGIC_NONE)
    by (intros H; vm_compute in H; discriminate H).
  split; [exact H1|]. repeat (split; [reflexivity|]).
  exact (float_failure_propagates (E := Fixture.ext) Fixture.w_bad_value
           "relperm.csv" "out.inc" "__NONE__" "MYPARAM" "ABSENT" "sgof" 1
           "parameters.txt" Fixture.relperm_lines
           [Fixture.line "MYPARAM high"] [("MYPARAM", VStr "high")]
           (VStr "high")
           (ValueError "could not convert string to float: 'high'")
           eq_refl H1 eq_refl eq_refl eq_refl eq_refl eq_refl eq_refl).
Defined.

Lemma parse_failure_propagates_witness :
  rm_genkw_prefix_str "MYPARAM" <> MAGIC_NONE /\
  extract_key_value (External := Fixture.ext) [Fixture.line "MYPARAM"]
    = inl (ValueError
             (String.append "No value found in line "
                (Fixture.line "MYPARAM"))) /\
  run (E := Fixture.ext) "relperm.csv" "out.inc" "__NONE__"
      "MYPARAM" "__NONE__" "sgof" 1 "parameters.txt" Fixture.w_bad_line =
    ([PathExists "relperm.csv"; PathExists "parameters.txt";
      OpenRead "parameters.txt"],
     inl (Raise (ValueError
                   (String.append "No value found in line "
                      (Fixture.line "MYPARAM"))))).
Proof.
  assert (H1 : rm_genkw_prefix_str "MYPARAM" <> MAGIC_NONE)
    by (intros H; vm_compute in H; discriminate H).
  split; [exact H1|]. split; [reflexivity|].
  exact (parse_failure_propagates (E := Fixture.ext) Fixture.w_bad_line
           "relperm.csv" "out.inc" "__NONE__" "MYPARAM" "__NONE__" "sgof" 1
           "parameters.txt" Fixture.relperm_lines [Fixture.line "MYPARAM"]
           (ValueError
              (String.append "No value found in line "
                 (Fixture.line "MYPARAM")))
           eq_refl H1 eq_refl eq_refl eq_refl eq_refl).
Defined.

(** * Claims on the names as given, and on every resolved value *)

(** C4 as stated fails: a gas-oil name that is given, not the sentinel, but
    whose part after the colon is the sentinel, together with the sentinel
    as water-oil name, does not make [run] exit: pyscal is called without
    interpolation values and [run] returns. *)
Lemma gas_oil_namespaced_sentinel_counterexample :
  "NS:__NONE__" <> MAGIC_NONE /\
  "__NONE__" = MAGIC_NONE /\
  run (E := Fixture.ext) "relperm.csv" "out.inc" "__NONE__"
      "__NONE__" "NS:__NONE__" "sgof" 1 "parameters.txt" Fixture.w_params =
    ([PathExists "relperm.csv";
      PyscalMain
        (pyscal_kwargs "relperm.csv" "out.inc" "__NONE__" "sgof" 1
           None None)],
     inr tt).
Proof.
  split; [intros H; discriminate H|]. split; reflexivity.
Qed.

(** C5 as stated fails: a water-oil name that is given, not the sentinel,
    but whose part after the colon is the sentinel, together with the
    sentinel as gas-oil name, has nothing looked up: the parameters file is
    not opened and pyscal gets no interpolation value. *)
Lemma water_oil_namespaced_sentinel_counterexample :
  "NS:__NONE__" <> MAGIC_NONE /\
  "__NONE__" = MAGIC_NONE /\
  run (E := Fixture.ext) "relperm.csv" "out.inc" "__NONE__"
      "NS:__NONE__" "__NONE__" "sgof" 1 "parameters.txt" Fixture.w_params =
    ([PathExists "relperm.csv";
      PyscalMain
        (pyscal_kwargs "relperm.csv" "out.inc" "__NONE__" "sgof" 1
           None None)],
     inr tt) /\
  opened_paths
    (fst (run (E := Fixture.ext) "relperm.csv" "out.inc" "__NONE__"
            "NS:__NONE__" "__NONE__" "sgof" 1 "parameters.txt"
            Fixture.w_params)) = [] /\
  forall args,
    In (PyscalMain args)
       (fst (run (E := Fixture.ext) "relperm.csv" "out.inc" "__NONE__"
               "NS:__NONE__" "__NONE__" "sgof" 1 "parameters.txt"
               Fixture.w_params)) ->
    int_param_wo args = None /\ int_param_go args = None.
Proof.
  split; [intros H; discriminate H|].
  split; [reflexivity|]. split; [reflexivity|]. split; [reflexivity|].
  intros args H. vm_compute in H.
  destruct H as [H|[H|[]]]; [discriminate H|].
  injection H as <-. split; reflexivity.
Qed.


Section Forwarding.

Context {E : External}.


End Forwarding.

